(** * Contract Intelligence API: a shallow embedding of the service layer

    The Python sources under [app/] are embedded function by function:
    [app/utils/db.py] (the document store), [app/services/pdf_service.py],
    [app/services/extraction_service.py], [app/services/audit_service.py],
    [app/services/rag_service.py] and the routes of [app/main.py].

    Conventions of the embedding.
    - A Python [str] is a [string]; its characters are code points below 256.
    - A [dict] that is iterated is an association list in insertion order.
    - [try]/[except] is the error monad [result]; an exception carries the
      text that [str(e)] returns.
    - The libraries the services call (the PDF reader, the completion
      provider, [json.loads], the model validation of pydantic, the clock)
      are the fields of interfaces; [hashlib.md5] is implemented. *)

From Stdlib Require Import String Ascii List ZArith NArith Lia Bool Arith.
From Stdlib Require Import DecimalString DecimalNat QArith.
Import ListNotations.

Local Close Scope Q_scope.
Local Open Scope nat_scope.
#[local] Set Warnings "-register-all,-abstract-large-number".

Local Open Scope list_scope.
Local Open Scope string_scope.

Set Implicit Arguments.

(* ===================================================================== *)
(** * Python strings *)
(* ===================================================================== *)

Module PyStr.

(** The double quote, for the literals that contain one. *)
Definition dq : string := String (ascii_of_nat 34) EmptyString.
(** The line feed. *)
Definition nl : string := String (ascii_of_nat 10) EmptyString.

(** [s[:n]] *)
Fixpoint take (n : nat) (s : string) : string :=
  match n, s with
  | S n', String c s' => String c (take n' s')
  | _, _ => EmptyString
  end.

(** [s[n:]] *)
Fixpoint drop (n : nat) (s : string) : string :=
  match n, s with
  | S n', String _ s' => drop n' s'
  | _, _ => s
  end.

(** [s.startswith(p)] *)
Fixpoint startswith (p s : string) : bool :=
  match p, s with
  | EmptyString, _ => true
  | String a p', String b s' => Ascii.eqb a b && startswith p' s'
  | String _ _, EmptyString => false
  end.

(** [p in s]: [p] occurs in [s] as a contiguous run of characters. *)
Fixpoint contains (p s : string) : bool :=
  startswith p s ||
  match s with
  | EmptyString => false
  | String _ s' => contains p s'
  end.

(** [s.endswith(p)] *)
Definition endswith (p s : string) : bool :=
  (String.length p <=? String.length s)%nat
  && String.eqb (drop (String.length s - String.length p) s) p.

(** The characters [str.isspace] accepts among the code points below 256:
    TAB, LF, VT, FF, CR, the separators FS, GS, RS and US, the space,
    NEL and the no-break space. *)
Definition isspace (c : ascii) : bool :=
  let n := nat_of_ascii c in
  ((9 <=? n) && (n <=? 13) || (28 <=? n) && (n <=? 32)
   || (n =? 133) || (n =? 160))%nat.

(** [s.lstrip()] *)
Fixpoint lstrip (s : string) : string :=
  match s with
  | EmptyString => EmptyString
  | String c s' => if isspace c then lstrip s' else s
  end.

(** [s.rstrip()] *)
Fixpoint rstrip (s : string) : string :=
  match s with
  | EmptyString => EmptyString
  | String c s' =>
      match rstrip s' with
      | EmptyString => if isspace c then EmptyString else String c EmptyString
      | r => String c r
      end
  end.

(** [s.strip()] *)
Definition strip (s : string) : string := rstrip (lstrip s).

(** [s.replace(old, new)] for a non-empty [old]: the occurrences are found
    from the left and do not overlap.  [skip] counts the characters of the
    occurrence being replaced that are still to be passed over. *)
Fixpoint replace_from (skip : nat) (old new s : string) : string :=
  match s with
  | EmptyString => EmptyString
  | String c s' =>
      match skip with
      | S k => replace_from k old new s'
      | O =>
          if startswith old s
          then new ++ replace_from (String.length old - 1) old new s'
          else String c (replace_from 0 old new s')
      end
  end.

(** With an empty [old], Python puts [new] before every character and
    after the last one. *)
Fixpoint interleave (new s : string) : string :=
  match s with
  | EmptyString => new
  | String c s' => new ++ String c (interleave new s')
  end.

Definition replace (old new s : string) : string :=
  match old with
  | EmptyString => interleave new s
  | String _ _ => replace_from 0 old new s
  end.

(** [sep.join(l)] *)
Fixpoint join (sep : string) (l : list string) : string :=
  match l with
  | [] => EmptyString
  | [x] => x
  | x :: l' => x ++ sep ++ join sep l'
  end.

(** [s.split(',')]: the fields between the commas, of which there is always
    at least one. *)
Fixpoint split_comma (s : string) : list string :=
  match s with
  | EmptyString => [EmptyString]
  | String c s' =>
      if Ascii.eqb c ","%char then EmptyString :: split_comma s'
      else match split_comma s' with
           | f :: fs => String c f :: fs
           | [] => [String c EmptyString]
           end
  end.

(** The decimal digits: what [\d] matches among the code points below 256. *)
Definition isdigit (c : ascii) : bool :=
  let n := nat_of_ascii c in ((48 <=? n) && (n <=? 57))%nat.

Definition digit_value (c : ascii) : nat := nat_of_ascii c - 48.

(** The longest run of digits at the head of [s], and what follows it. *)
Fixpoint span_digits (s : string) : string * string :=
  match s with
  | String c s' =>
      if isdigit c
      then let (ds, rest) := span_digits s' in (String c ds, rest)
      else (EmptyString, s)
  | EmptyString => (EmptyString, EmptyString)
  end.

(** [int(s)] on a string of decimal digits. *)
Fixpoint int_from (acc : nat) (s : string) : nat :=
  match s with
  | EmptyString => acc
  | String c s' => int_from (10 * acc + digit_value c) s'
  end.

Definition int (s : string) : nat := int_from 0 s.

(** [str(n)] for a natural number. *)
Definition str (n : nat) : string := NilEmpty.string_of_uint (Nat.to_uint n).

(** Every character of [s] satisfies [p]. *)
Fixpoint all (p : ascii -> bool) (s : string) : bool :=
  match s with
  | EmptyString => true
  | String c s' => p c && all p s'
  end.

(** [bool(s)]: a string is true when it is not empty. *)
Definition truthy (s : string) : bool :=
  match s with EmptyString => false | String _ _ => true end.

End PyStr.

(* ===================================================================== *)
(** * Exceptions and results *)
(* ===================================================================== *)

(** The handlers of the services tell [json.JSONDecodeError] from every other
    [Exception]; both carry the text of [str(e)]. *)
Inductive exn : Type :=
| JSONDecodeError (msg : string)
| Exception (msg : string).

Definition exn_str (e : exn) : string :=
  match e with JSONDecodeError m => m | Exception m => m end.

Inductive result (A : Type) : Type :=
| Ok (a : A)
| Raise (e : exn).
Arguments Ok {A} a.
Arguments Raise {A} e.

Definition bind {A B : Type} (r : result A) (k : A -> result B) : result B :=
  match r with
  | Ok a => k a
  | Raise e => Raise e
  end.

Notation "x <- r ;; k" := (bind r (fun x => k))
  (at level 61, r at next level, right associativity).

(** [try: body except Exception as e: handler(e)] *)
Definition try_except {A : Type} (body : result A) (handler : exn -> result A)
  : result A :=
  match body with
  | Ok a => Ok a
  | Raise e => handler e
  end.

(** A list comprehension whose element expression may raise. *)
Fixpoint mapM {A B : Type} (f : A -> result B) (l : list A) : result (list B) :=
  match l with
  | [] => Ok []
  | x :: l' => y <- f x ;; ys <- mapM f l' ;; Ok (y :: ys)
  end.

(* ===================================================================== *)
(** * [hashlib.md5] and [str.encode] *)
(* ===================================================================== *)

Module MD5.
Local Open Scope Z_scope.

(** [s.encode()]: UTF-8.  A code point below 128 is one byte, one from 128
    to 255 is two. *)
Definition encode_char (c : ascii) : list Z :=
  let n := Z.of_nat (nat_of_ascii c) in
  if n <? 128 then [n]
  else [Z.lor 192 (Z.shiftr n 6); Z.lor 128 (Z.land n 63)].

Fixpoint encode (s : string) : list Z :=
  match s with
  | EmptyString => []
  | String c s' => encode_char c ++ encode s'
  end.

(** Words are 32 bits wide; sums wrap around. *)
Definition w32 (x : Z) : Z := Z.land x 0xFFFFFFFF.
Definition add32 (x y : Z) : Z := w32 (x + y).
Definition not32 (x : Z) : Z := Z.lxor x 0xFFFFFFFF.
Definition rotl (x c : Z) : Z :=
  w32 (Z.lor (Z.shiftl x c) (Z.shiftr x (32 - c))).

Definition shifts : list Z :=
  [ 7; 12; 17; 22; 7; 12; 17; 22; 7; 12; 17; 22; 7; 12; 17; 22;
    5;  9; 14; 20; 5;  9; 14; 20; 5;  9; 14; 20; 5;  9; 14; 20;
    4; 11; 16; 23; 4; 11; 16; 23; 4; 11; 16; 23; 4; 11; 16; 23;
    6; 10; 15; 21; 6; 10; 15; 21; 6; 10; 15; 21; 6; 10; 15; 21 ].

Definition sines : list Z :=
  [ 0xd76aa478; 0xe8c7b756; 0x242070db; 0xc1bdceee;
    0xf57c0faf; 0x4787c62a; 0xa8304613; 0xfd469501;
    0x698098d8; 0x8b44f7af; 0xffff5bb1; 0x895cd7be;
    0x6b901122; 0xfd987193; 0xa679438e; 0x49b40821;
    0xf61e2562; 0xc040b340; 0x265e5a51; 0xe9b6c7aa;
    0xd62f105d; 0x02441453; 0xd8a1e681; 0xe7d3fbc8;
    0x21e1cde6; 0xc33707d6; 0xf4d50d87; 0x455a14ed;
    0xa9e3e905; 0xfcefa3f8; 0x676f02d9; 0x8d2a4c8a;
    0xfffa3942; 0x8771f681; 0x6d9d6122; 0xfde5380c;
    0xa4beea44; 0x4bdecfa9; 0xf6bb4b60; 0xbebfbc70;
    0x289b7ec6; 0xeaa127fa; 0xd4ef3085; 0x04881d05;
    0xd9d4d039; 0xe6db99e5; 0x1fa27cf8; 0xc4ac5665;
    0xf4292244; 0x432aff97; 0xab9423a7; 0xfc93a039;
    0x655b59c3; 0x8f0ccc92; 0xffeff47d; 0x85845dd1;
    0x6fa87e4f; 0xfe2ce6e0; 0xa3014314; 0x4e0811a1;
    0xf7537e82; 0xbd3af235; 0x2ad7d2bb; 0xeb86d391 ].

Record state := mkState { sa : Z; sb : Z; sc : Z; sd : Z }.

Definition init : state :=
  mkState 0x67452301 0xefcdab89 0x98badcfe 0x10325476.

(** One of the 64 operations on a block whose sixteen words are [m]. *)
Definition round (m : list Z) (st : state) (i : nat) : state :=
  let '(mkState a b c d) := st in
  let iz := Z.of_nat i in
  let '(f, g) :=
    if iz <? 16 then (Z.lor (Z.land b c) (Z.land (not32 b) d), iz)
    else if iz <? 32 then
      (Z.lor (Z.land d b) (Z.land (not32 d) c), (5 * iz + 1) mod 16)
    else if iz <? 48 then (Z.lxor b (Z.lxor c d), (3 * iz + 5) mod 16)
    else (Z.lxor c (Z.lor b (not32 d)), (7 * iz) mod 16) in
  let f' := add32 (add32 (add32 f a) (nth i sines 0)) (nth (Z.to_nat g) m 0) in
  mkState d (add32 b (rotl f' (nth i shifts 0))) b c.

(** Little-endian words of a run of bytes. *)
Fixpoint words (bs : list Z) : list Z :=
  match bs with
  | b0 :: b1 :: b2 :: b3 :: bs' =>
      (b0 + Z.shiftl b1 8 + Z.shiftl b2 16 + Z.shiftl b3 24) :: words bs'
  | _ => []
  end.

Definition block (st : state) (bytes : list Z) : state :=
  let r := fold_left (round (words bytes)) (seq 0 64) st in
  mkState (add32 (sa st) (sa r)) (add32 (sb st) (sb r))
          (add32 (sc st) (sc r)) (add32 (sd st) (sd r)).

(** The eight bytes of the length in bits, least significant first. *)
Definition length_bytes (n : Z) : list Z :=
  map (fun k => Z.land (Z.shiftr n (8 * Z.of_nat k)) 255) (seq 0 8).

Definition pad (msg : list Z) : list Z :=
  let len := List.length msg in
  msg ++ [128] ++ repeat 0 ((119 - len mod 64) mod 64)%nat
      ++ length_bytes (8 * Z.of_nat len).

(** The blocks of 64 bytes, at most [fuel] of them. *)
Fixpoint blocks (fuel : nat) (st : state) (bs : list Z) : state :=
  match fuel, bs with
  | S fuel', _ :: _ => blocks fuel' (block st (firstn 64 bs)) (skipn 64 bs)
  | _, _ => st
  end.

Definition word_bytes (w : Z) : list Z :=
  map (fun k => Z.land (Z.shiftr w (8 * Z.of_nat k)) 255) (seq 0 4).

Definition digest (msg : list Z) : list Z :=
  let p := pad msg in
  let st := blocks (List.length p) init p in
  word_bytes (sa st) ++ word_bytes (sb st) ++ word_bytes (sc st)
             ++ word_bytes (sd st).

Definition hex_digit (n : Z) : ascii :=
  ascii_of_nat (Z.to_nat (if n <? 10 then 48 + n else 87 + n)).

Fixpoint hex (bs : list Z) : string :=
  match bs with
  | [] => EmptyString
  | b :: bs' => String (hex_digit (Z.shiftr b 4))
                       (String (hex_digit (Z.land b 15)) (hex bs'))
  end.

(** [hashlib.md5(data).hexdigest()] *)
Definition hexdigest (data : list Z) : string := hex (digest data).

End MD5.

(* ===================================================================== *)
(** * Values decoded from JSON *)
(* ===================================================================== *)

(** What [json.loads] returns: [None], a [bool], an [int], a [float], a
    [str], a [list] or a [dict] with string keys.  A [float] is written as
    the rational its literal denotes. *)
Inductive json : Type :=
| JNull
| JBool (b : bool)
| JInt (z : Z)
| JFloat (q : Q)
| JStr (s : string)
| JArr (items : list json)
| JObj (members : list (string * json)).

(** A Python [dict] keeps its keys in the order they were first inserted;
    assigning to a key that is present replaces the value where it stands. *)
Section Dict.
Variable V : Type.

Definition dict : Type := list (string * V).

Fixpoint dict_get (d : dict) (k : string) : option V :=
  match d with
  | [] => None
  | (k', v) :: d' => if String.eqb k' k then Some v else dict_get d' k
  end.

Definition dict_contains (d : dict) (k : string) : bool :=
  match dict_get d k with Some _ => true | None => false end.

Fixpoint dict_set (d : dict) (k : string) (v : V) : dict :=
  match d with
  | [] => [(k, v)]
  | (k', v') :: d' =>
      if String.eqb k' k then (k, v) :: d' else (k', v') :: dict_set d' k v
  end.

Definition dict_values (d : dict) : list V := map snd d.
Definition dict_keys (d : dict) : list string := map fst d.
End Dict.

Module Json.

(** [type(v).__name__] *)
Definition type_name (v : json) : string :=
  match v with
  | JNull => "NoneType"
  | JBool _ => "bool"
  | JInt _ => "int"
  | JFloat _ => "float"
  | JStr _ => "str"
  | JArr _ => "list"
  | JObj _ => "dict"
  end.

(** [bool(v)] *)
Definition truthy (v : json) : bool :=
  match v with
  | JNull => false
  | JBool b => b
  | JInt z => negb (Z.eqb z 0)
  | JFloat q => negb (Qeq_bool q 0)
  | JStr s => PyStr.truthy s
  | JArr l => match l with [] => false | _ => true end
  | JObj m => match m with [] => false | _ => true end
  end.

Fixpoint chars (s : string) : list json :=
  match s with
  | EmptyString => []
  | String c s' => JStr (String c EmptyString) :: chars s'
  end.

End Json.

(* ===================================================================== *)
(** * The collaborators outside the repository *)
(* ===================================================================== *)

(** The completion provider.  [generate prompt] is the text of the reply
    (the [content] of the first choice, or the [text] of the response) or the
    exception of the call; [generate_stream prompt] is the texts of the
    chunks that arrive, and the exception that ends the stream if one does. *)
Class Provider : Type := {
  generate : string -> result string;
  generate_stream : string -> list string * option exn
}.

(** [json.loads].  Malformed text raises [JSONDecodeError]. *)
Class JsonDecoder : Type := {
  loads : string -> result json
}.

(** The field validation of pydantic for a [str] and for a [float] field
    ([None] when the value is refused), and the text of the
    [ValidationError] of a model given the fields that were refused. *)
Class Pydantic : Type := {
  validate_str : json -> option string;
  validate_float : json -> option Q;
  validation_error : string -> list string -> string
}.

(** The interpreter and the operating system: the texts of the built-in
    errors, the clock, the faults of writing a file, and the PDF reader,
    which gives for a file's bytes its pages, each with the outcome of
    [extract_text()]. *)
Class Runtime : Type := {
  attribute_error : json -> string -> string;
  not_iterable : json -> string;
  not_a_mapping : string -> json -> string;
  file_not_found : string -> string;
  now_isoformat : string;
  write_fault : string -> option exn;
  PdfReader : list Z -> result (list (result string))
}.

(* ===================================================================== *)
(** * [app/models.py] *)
(* ===================================================================== *)

Record Party := mkParty {
  party_name : string;
  party_role : option string
}.

Record Signatory := mkSignatory {
  signatory_name : string;
  signatory_title : option string
}.

Record LiabilityCap := mkLiabilityCap {
  amount : option Q;
  currency : option string
}.

Record ExtractedFields := mkExtractedFields {
  parties : list Party;
  effective_date : option string;
  term : option string;
  governing_law : option string;
  payment_terms : option string;
  termination : option string;
  auto_renewal : option string;
  confidentiality : option string;
  indemnity : option string;
  liability_cap : option LiabilityCap;
  signatories : list Signatory
}.

(** [ExtractedFields()]: every field at its default. *)
Definition ExtractedFields_default : ExtractedFields :=
  mkExtractedFields [] None None None None None None None None None [].

Record Citation := mkCitation {
  cit_document_id : string;
  cit_page : option nat;
  char_start : option nat;
  char_end : option nat;
  text_snippet : string
}.

Record AskResponse := mkAskResponse {
  answer : string;
  citations : list Citation;
  confidence : option Q
}.

Record AuditFinding := mkAuditFinding {
  severity : string;
  clause_type : string;
  description : string;
  evidence : string;
  finding_document_id : string;
  finding_page : option nat;
  recommendation : option string
}.

Record IngestResponse := mkIngestResponse {
  document_ids : list string;
  message : string;
  processed_count : nat
}.

(* ===================================================================== *)
(** * [app/utils/db.py] *)
(* ===================================================================== *)

(** An entry of [DocumentStore.documents]. *)
Record Document := mkDocument {
  doc_id : string;
  doc_filename : string;
  doc_text : string;
  doc_metadata : dict nat;
  doc_uploaded_at : string;
  doc_page_count : nat
}.

Record DocumentStore := mkDocumentStore {
  documents : dict Document;
  metrics : dict nat
}.

Module Db.

(** [DocumentStore()] *)
Definition init : DocumentStore :=
  mkDocumentStore []
    [("total_ingests", 0); ("total_extractions", 0);
     ("total_questions", 0); ("total_audits", 0)].

(** [self.metrics[name] += 1], for a key that is present. *)
Definition bump (m : dict nat) (name : string) : dict nat :=
  match dict_get m name with
  | Some n => dict_set m name (n + 1)
  | None => m
  end.

Definition store_document `{Runtime} (db : DocumentStore)
    (id filename text : string) (metadata : option (dict nat))
  : DocumentStore :=
  (* [metadata or {}]; a [get] on it is the one the source guards with
     [if metadata]. *)
  let md := match metadata with Some m => m | None => [] end in
  let entry :=
    mkDocument id filename text md now_isoformat
      (match dict_get md "page_count" with Some n => n | None => 0 end) in
  mkDocumentStore (dict_set (documents db) id entry)
                  (bump (metrics db) "total_ingests").

Definition get_document (db : DocumentStore) (id : string)
  : option Document :=
  dict_get (documents db) id.

Definition get_all_documents (db : DocumentStore) : list Document :=
  dict_values (documents db).

Definition document_exists (db : DocumentStore) (id : string) : bool :=
  dict_contains (documents db) id.

Definition get_metrics (db : DocumentStore) : dict nat :=
  dict_set (metrics db) "total_documents" (List.length (documents db)).

Definition increment_metric (db : DocumentStore) (metric_name : string)
  : DocumentStore :=
  if dict_contains (metrics db) metric_name
  then mkDocumentStore (documents db) (bump (metrics db) metric_name)
  else db.

End Db.

(* ===================================================================== *)
(** * [app/services/pdf_service.py] *)
(* ===================================================================== *)

(** The files on disk, by path. *)
Definition filesystem : Type := dict (list Z).

Module PDFService.
Import PyStr.

(** [open(path, 'rb')] followed by a read of the whole file. *)
Definition open_rb `{Runtime} (fs : filesystem) (path : string)
  : result (list Z) :=
  match dict_get fs path with
  | Some bytes => Ok bytes
  | None => Raise (Exception (file_not_found path))
  end.

(** The loop over [enumerate(pdf_reader.pages)], from index [page_num]. *)
Fixpoint annotate (page_num : nat) (pages : list (result string))
    (text : string) : result string :=
  match pages with
  | [] => Ok text
  | page :: pages' =>
      page_text <- page ;;
      annotate (S page_num) pages'
        (text ++ nl ++ "[PAGE " ++ str (page_num + 1) ++ "]" ++ nl
              ++ page_text ++ nl)
  end.

Definition extract_text_from_pdf `{Runtime} (fs : filesystem)
    (pdf_path : string) : result (string * nat) :=
  try_except
    (file <- open_rb fs pdf_path ;;
     pages <- PdfReader file ;;
     let page_count := List.length pages in
     text <- annotate 0 pages EmptyString ;;
     Ok (strip text, page_count))
    (fun e =>
       Raise (Exception ("Error extracting text from PDF: " ++ exn_str e))).

Definition generate_document_id (filename content : string) : string :=
  let hash_input := filename ++ "_" ++ take 1000 content in
  MD5.hexdigest (MD5.encode hash_input).

(** [os.path.join(a, b)] on a POSIX system. *)
Definition path_join (a b : string) : string :=
  if startswith "/" b then b
  else if negb (PyStr.truthy a) || endswith "/" a then a ++ b
  else a ++ "/" ++ b.

Definition save_uploaded_file `{Runtime} (fs : filesystem)
    (file_content : list Z) (filename upload_dir : string)
  : result (filesystem * string) :=
  let file_path := path_join upload_dir filename in
  match write_fault file_path with
  | Some e => Raise e
  | None => Ok (dict_set fs file_path file_content, file_path)
  end.

End PDFService.

(* ===================================================================== *)
(** * What the two structured services share *)
(* ===================================================================== *)

Module Reply.
Import PyStr.

Definition fence : string := "```".
Definition fence_json : string := "```json".

(** The [if]/[elif] that removes a fenced-code-block wrapper. *)
Definition strip_fence (response_text : string) : string :=
  if startswith fence_json response_text
  then strip (replace fence EmptyString
                      (replace fence_json EmptyString response_text))
  else if startswith fence response_text
  then strip (replace fence EmptyString response_text)
  else response_text.

Section Values.
Context `{Runtime} `{Pydantic}.

(** [v.get(key, default)] *)
Definition get (v : json) (key : string) (default : json) : result json :=
  match v with
  | JObj m =>
      Ok (match dict_get m key with Some x => x | None => default end)
  | _ => Raise (Exception (attribute_error v "get"))
  end.

(** [for x in v] *)
Definition iterate (v : json) : result (list json) :=
  match v with
  | JArr l => Ok l
  | JObj m => Ok (map JStr (dict_keys m))
  | JStr s => Ok (Json.chars s)
  | _ => Raise (Exception (not_iterable v))
  end.

(** The keyword arguments of a constructor called on an unpacked [v]. *)
Definition kwargs (model : string) (v : json) : result (dict json) :=
  match v with
  | JObj m => Ok m
  | _ => Raise (Exception (not_a_mapping model v))
  end.

(** A field declared [str]. *)
Definition required_str (v : option json) : option string :=
  match v with
  | Some x => validate_str x
  | None => None
  end.

(** A field declared [Optional[str] = None]. *)
Definition optional_str (v : option json) : option (option string) :=
  match v with
  | None | Some JNull => Some None
  | Some x => option_map Some (validate_str x)
  end.

(** A field declared [Optional[float] = None]. *)
Definition optional_float (v : option json) : option (option Q) :=
  match v with
  | None | Some JNull => Some None
  | Some x => option_map Some (validate_float x)
  end.

(** The names of the fields that were refused. *)
Definition refused (checks : list (string * bool)) : list string :=
  map fst (filter (fun c => negb (snd c)) checks).

Definition accepted {A : Type} (o : option A) : bool :=
  match o with Some _ => true | None => false end.

End Values.

End Reply.

(* ===================================================================== *)
(** * [app/services/extraction_service.py] *)
(* ===================================================================== *)

Module ExtractionService.
Import PyStr Reply.

Section Service.
Context `{Provider} `{JsonDecoder} `{Pydantic} `{Runtime}.

(** A JSON key or string of the prompt, between double quotes. *)
Definition q (s : string) : string := dq ++ s ++ dq.

Definition prompt (document_text : string) : string :=
  join nl
    [ EmptyString;
      "You are a contract analysis expert. Extract the following information from the contract below.";
      "Return ONLY a valid JSON object with these exact fields:";
      EmptyString;
      "{";
      "  " ++ q "parties" ++ ": [";
      "    {" ++ q "name" ++ ": " ++ q "Party Name" ++ ", " ++ q "role"
              ++ ": " ++ q "Buyer/Seller/etc" ++ "}";
      "  ],";
      "  " ++ q "effective_date" ++ ": " ++ q "date or null" ++ ",";
      "  " ++ q "term" ++ ": " ++ q "contract duration or null" ++ ",";
      "  " ++ q "governing_law" ++ ": " ++ q "jurisdiction or null" ++ ",";
      "  " ++ q "payment_terms" ++ ": " ++ q "summary or null" ++ ",";
      "  " ++ q "termination" ++ ": " ++ q "termination conditions or null"
           ++ ",";
      "  " ++ q "auto_renewal" ++ ": " ++ q "auto-renewal terms or null"
           ++ ",";
      "  " ++ q "confidentiality" ++ ": "
           ++ q "confidentiality terms or null" ++ ",";
      "  " ++ q "indemnity" ++ ": " ++ q "indemnity terms or null" ++ ",";
      "  " ++ q "liability_cap" ++ ": {" ++ q "amount" ++ ": number, "
           ++ q "currency" ++ ": " ++ q "USD/EUR/etc" ++ "},";
      "  " ++ q "signatories" ++ ": [";
      "    {" ++ q "name" ++ ": " ++ q "Signatory Name" ++ ", "
              ++ q "title" ++ ": " ++ q "Title" ++ "}";
      "  ]";
      "}";
      EmptyString;
      "If any field is not found, use null or empty array [].";
      EmptyString;
      "CONTRACT TEXT:";
      take 8000 document_text;
      EmptyString;
      "JSON OUTPUT:";
      EmptyString ].

Definition new_Party (m : dict json) : result Party :=
  let name := required_str (dict_get m "name") in
  let role := optional_str (dict_get m "role") in
  match name, role with
  | Some n, Some r => Ok (mkParty n r)
  | _, _ =>
      Raise (Exception (validation_error "Party"
        (refused [("name", accepted name); ("role", accepted role)])))
  end.

Definition new_Signatory (m : dict json) : result Signatory :=
  let name := required_str (dict_get m "name") in
  let title := optional_str (dict_get m "title") in
  match name, title with
  | Some n, Some t => Ok (mkSignatory n t)
  | _, _ =>
      Raise (Exception (validation_error "Signatory"
        (refused [("name", accepted name); ("title", accepted title)])))
  end.

Definition new_LiabilityCap (m : dict json) : result LiabilityCap :=
  let amount := optional_float (dict_get m "amount") in
  let currency := optional_str (dict_get m "currency") in
  match amount, currency with
  | Some a, Some c => Ok (mkLiabilityCap a c)
  | _, _ =>
      Raise (Exception (validation_error "LiabilityCap"
        (refused [("amount", accepted amount);
                  ("currency", accepted currency)])))
  end.

Definition new_ExtractedFields (parties : list Party)
    (effective_date term governing_law payment_terms termination
       auto_renewal confidentiality indemnity : json)
    (liability_cap : option LiabilityCap) (signatories : list Signatory)
  : result ExtractedFields :=
  let v := fun x => optional_str (Some x) in
  match v effective_date, v term, v governing_law, v payment_terms,
        v termination, v auto_renewal, v confidentiality, v indemnity with
  | Some a, Some b, Some c, Some d, Some e, Some f, Some g, Some h =>
      Ok (mkExtractedFields parties a b c d e f g h liability_cap
                            signatories)
  | _, _, _, _, _, _, _, _ =>
      Raise (Exception (validation_error "ExtractedFields"
        (refused
           [("effective_date", accepted (v effective_date));
            ("term", accepted (v term));
            ("governing_law", accepted (v governing_law));
            ("payment_terms", accepted (v payment_terms));
            ("termination", accepted (v termination));
            ("auto_renewal", accepted (v auto_renewal));
            ("confidentiality", accepted (v confidentiality));
            ("indemnity", accepted (v indemnity))])))
  end.

(** The [return ExtractedFields(...)] of the [try] block, its arguments
    evaluated from left to right. *)
Definition build (extracted_data : json) : result ExtractedFields :=
  ps <- get extracted_data "parties" (JArr []) ;;
  ps <- iterate ps ;;
  parties <- mapM (fun p => m <- kwargs "Party" p ;; new_Party m) ps ;;
  effective_date <- get extracted_data "effective_date" JNull ;;
  term <- get extracted_data "term" JNull ;;
  governing_law <- get extracted_data "governing_law" JNull ;;
  payment_terms <- get extracted_data "payment_terms" JNull ;;
  termination <- get extracted_data "termination" JNull ;;
  auto_renewal <- get extracted_data "auto_renewal" JNull ;;
  confidentiality <- get extracted_data "confidentiality" JNull ;;
  indemnity <- get extracted_data "indemnity" JNull ;;
  cap <- get extracted_data "liability_cap" JNull ;;
  liability_cap <-
    (if Json.truthy cap
     then m <- kwargs "LiabilityCap" cap ;;
          c <- new_LiabilityCap m ;; Ok (Some c)
     else Ok None) ;;
  ss <- get extracted_data "signatories" (JArr []) ;;
  ss <- iterate ss ;;
  signatories <-
    mapM (fun s => m <- kwargs "Signatory" s ;; new_Signatory m) ss ;;
  new_ExtractedFields parties effective_date term governing_law
    payment_terms termination auto_renewal confidentiality indemnity
    liability_cap signatories.

Definition extract_fields (document_text : string)
  : result ExtractedFields :=
  let body :=
    reply <- generate (prompt document_text) ;;
    let response_text := strip reply in
    let response_text := strip_fence response_text in
    extracted_data <- loads response_text ;;
    build extracted_data in
  match body with
  | Ok fields => Ok fields
  | Raise (JSONDecodeError _) => Ok ExtractedFields_default
  | Raise e => Raise (Exception ("Extraction error: " ++ exn_str e))
  end.

End Service.
End ExtractionService.

(* ===================================================================== *)
(** * [app/services/audit_service.py] *)
(* ===================================================================== *)

Module AuditService.
Import PyStr Reply.

Section Service.
Context `{Provider} `{JsonDecoder} `{Pydantic} `{Runtime}.

Definition q (s : string) : string := dq ++ s ++ dq.

Definition prompt (doc : Document) : string :=
  join nl
    [ EmptyString;
      "You are a legal contract auditor. Analyze this contract for risky clauses.";
      EmptyString;
      "RISK CATEGORIES TO CHECK:";
      "1. Auto-renewal with less than 30 days notice";
      "2. Unlimited liability or no liability cap";
      "3. Broad indemnity clauses";
      "4. One-sided termination rights";
      "5. Unfavorable payment terms";
      "6. Lack of confidentiality protections";
      "7. Unclear dispute resolution";
      EmptyString;
      "For each risk found, return a JSON array with this structure:";
      "[";
      "  {";
      "    " ++ q "severity" ++ ": " ++ q "high|medium|low" ++ ",";
      "    " ++ q "clause_type" ++ ": "
        ++ q "auto_renewal|liability|indemnity|termination|payment|confidentiality|other"
        ++ ",";
      "    " ++ q "description" ++ ": " ++ q "Brief description of the risk"
             ++ ",";
      "    " ++ q "evidence" ++ ": "
             ++ q "Exact quote from contract (keep it short)" ++ ",";
      "    " ++ q "recommendation" ++ ": " ++ q "How to mitigate this risk";
      "  }";
      "]";
      EmptyString;
      "CONTRACT TEXT:";
      take 8000 (doc_text doc);
      EmptyString;
      "Return ONLY the JSON array, no other text.";
      EmptyString;
      "JSON OUTPUT:";
      EmptyString ].

(** [AuditFinding(severity=finding.get("severity", "low"), ...)] *)
Definition new_AuditFinding (document_id : string) (finding : json)
  : result AuditFinding :=
  sev <- get finding "severity" (JStr "low") ;;
  typ <- get finding "clause_type" (JStr "other") ;;
  des <- get finding "description" (JStr EmptyString) ;;
  evi <- get finding "evidence" (JStr EmptyString) ;;
  rec <- get finding "recommendation" JNull ;;
  let sev := validate_str sev in
  let typ := validate_str typ in
  let des := validate_str des in
  let evi := validate_str evi in
  let rec := optional_str (Some rec) in
  match sev, typ, des, evi, rec with
  | Some s, Some t, Some d, Some e, Some r =>
      Ok (mkAuditFinding s t d e document_id None r)
  | _, _, _, _, _ =>
      Raise (Exception (validation_error "AuditFinding"
        (refused [("severity", accepted sev);
                  ("clause_type", accepted typ);
                  ("description", accepted des);
                  ("evidence", accepted evi);
                  ("recommendation", accepted rec)])))
  end.

(** The finding returned when the reply is not JSON. *)
Definition incomplete (document_id : string) : AuditFinding :=
  mkAuditFinding "low" "other" "Unable to complete full audit analysis"
    "Analysis incomplete" document_id None
    (Some "Manual review recommended").

(** The finding returned on any other exception. *)
Definition failed (document_id : string) (e : exn) : AuditFinding :=
  mkAuditFinding "low" "other" ("Audit error: " ++ exn_str e)
    EmptyString document_id None None.

Definition audit_document (db : DocumentStore) (document_id : string)
  : list AuditFinding :=
  match Db.get_document db document_id with
  | None => []
  | Some doc =>
      let body :=
        reply <- generate (prompt doc) ;;
        let response_text := strip reply in
        let response_text := strip_fence response_text in
        findings_data <- loads response_text ;;
        items <- iterate findings_data ;;
        mapM (new_AuditFinding document_id) items in
      match body with
      | Ok findings => findings
      | Raise (JSONDecodeError _) => [incomplete document_id]
      | Raise e => [failed document_id e]
      end
  end.

Fixpoint batch_audit (db : DocumentStore) (document_ids : list string)
    (results : dict (list AuditFinding)) : dict (list AuditFinding) :=
  match document_ids with
  | [] => results
  | doc_id :: rest =>
      batch_audit db rest
        (if Db.document_exists db doc_id
         then dict_set results doc_id (audit_document db doc_id)
         else results)
  end.

End Service.
End AuditService.

(* ===================================================================== *)
(** * [app/services/rag_service.py] *)
(* ===================================================================== *)

Module RAGService.
Import PyStr.

(** The fixed answer for an empty document set. *)
Definition no_documents : string :=
  "No documents found. Please upload documents first.".

(** The documents a question is answered from.  An absent
    [document_ids] and an empty one are both false in [if document_ids]. *)
Definition select (db : DocumentStore) (document_ids : option (list string))
  : list Document :=
  match document_ids with
  | Some ((_ :: _) as ids) =>
      flat_map
        (fun doc_id =>
           if Db.document_exists db doc_id
           then match Db.get_document db doc_id with
                | Some doc => [doc]
                | None => []
                end
           else [])
        ids
  | _ => Db.get_all_documents db
  end.

(** The loop that builds [context]. *)
Definition context_of (docs : list Document) : string :=
  fold_left
    (fun context doc =>
       context ++ nl ++ nl ++ "[DOCUMENT: " ++ doc_id doc ++ "]" ++ nl
               ++ take 5000 (doc_text doc) ++ nl)
    docs EmptyString.

Definition prompt (question context : string) : string :=
  join nl
    [ EmptyString;
      "Answer the following question based ONLY on the provided contract documents.";
      "Include specific references to document sections when possible.";
      EmptyString;
      "QUESTION: " ++ question;
      EmptyString;
      "DOCUMENTS:";
      context;
      EmptyString;
      "Provide a clear, accurate answer with citations. If the answer is not in the documents, say so.";
      EmptyString;
      "ANSWER:";
      EmptyString ].

Definition prompt_stream (question context : string) : string :=
  join nl
    [ EmptyString;
      "Answer the following question based ONLY on the provided contract documents.";
      EmptyString;
      "QUESTION: " ++ question;
      EmptyString;
      "DOCUMENTS:";
      context;
      EmptyString;
      "ANSWER:";
      EmptyString ].

(** A match of the pattern [\[PAGE (\d+)\]] at the head of [s]: the group. *)
Definition match_page (s : string) : option string :=
  if startswith "[PAGE " s
  then match span_digits (drop 6 s) with
       | (String d ds, String c _) =>
           if Ascii.eqb c "]"%char then Some (String d ds) else None
       | _ => None
       end
  else None.

(** [re.findall(page_pattern, s)]: the groups of the matches, found from
    the left, none overlapping another.  [skip] counts the characters of
    the last match that the scan has yet to pass. *)
Fixpoint findall_from (skip : nat) (s : string) : list string :=
  match s with
  | EmptyString => []
  | String _ s' =>
      match skip with
      | S k => findall_from k s'
      | O =>
          match match_page s with
          | Some ds => ds :: findall_from (6 + String.length ds) s'
          | None => findall_from 0 s'
          end
      end
  end.

Definition findall_pages (s : string) : list string := findall_from 0 s.

(** [int(pages[0]) if pages else None] *)
Definition first_page (pages : list string) : option nat :=
  match pages with
  | p :: _ => Some (int p)
  | [] => None
  end.

Definition _extract_citations (answer : string) (docs : list Document)
  : list Citation :=
  fold_left
    (fun citations doc =>
       let doc_id := doc_id doc in
       let pages := findall_pages (doc_text doc) in
       if contains doc_id answer || contains (doc_filename doc) answer
       then List.app citations
              [mkCitation doc_id (first_page pages) None None
                          (take 200 (doc_text doc))]
       else citations)
    docs [].

Section Service.
Context `{Provider}.

Definition answer_question (db : DocumentStore) (question : string)
    (document_ids : option (list string)) : AskResponse :=
  let docs := select db document_ids in
  match docs with
  | [] => mkAskResponse no_documents [] None
  | _ :: _ =>
      let context := context_of docs in
      let body :=
        reply <- generate (prompt question context) ;;
        let answer_text := strip reply in
        let citations := _extract_citations answer_text docs in
        Ok (mkAskResponse answer_text citations (Some 0.85%Q)) in
      match body with
      | Ok response => response
      | Raise e =>
          mkAskResponse ("Error processing question: " ++ exn_str e)
                        [] None
      end
  end.

(** The fragments the generator yields, in order, until it ends. *)
Definition answer_question_stream (db : DocumentStore) (question : string)
    (document_ids : option (list string)) : list string :=
  let docs := select db document_ids in
  match docs with
  | [] => [no_documents]
  | _ :: _ =>
      let context := context_of docs in
      let (chunks, failure) :=
        generate_stream (prompt_stream question context) in
      List.app (filter PyStr.truthy chunks)
        match failure with
        | Some e => ["Error: " ++ exn_str e]
        | None => []
        end
  end.

End Service.
End RAGService.

(* ===================================================================== *)
(** * [app/main.py] *)
(* ===================================================================== *)

(** The outcome of a route: the body of the response, or the
    [HTTPException] raised. *)
Inductive http (A : Type) : Type :=
| Response (body : A)
| HTTPException (status_code : nat) (detail : string).
Arguments Response {A} body.
Arguments HTTPException {A} status_code detail.

(** [HealthResponse] of [app/models.py]. *)
Record HealthResponse := mkHealthResponse {
  status : string;
  health_timestamp : string;
  version : string
}.

(** One entry of the listing of [GET /documents]. *)
Record DocumentSummary := mkDocumentSummary {
  summary_id : string;
  summary_filename : string;
  summary_uploaded_at : string;
  summary_page_count : nat
}.

Record DocumentListing := mkDocumentListing {
  total : nat;
  listed : list DocumentSummary
}.

(** The payload of a webhook event. *)
Record WebhookPayload := mkWebhookPayload {
  event_type : string;
  event_document_id : string;
  event_timestamp : string;
  event_data : dict json
}.

(** The body [trigger_webhook_event] returns: a message, and the payload
    when one was queued. *)
Record WebhookReply := mkWebhookReply {
  reply_message : string;
  reply_payload : option WebhookPayload
}.

(** The process environment and the HTTP client: [os.getenv("WEBHOOK_URL")]
    and the outcome of [client.post(url, json=data, timeout=5.0)]. *)
Class Outbound : Type := {
  WEBHOOK_URL : option string;
  post : string -> WebhookPayload -> result unit
}.

(** An uploaded file: its name and the outcome of [await file.read()]. *)
Record UploadFile := mkUploadFile {
  filename : string;
  read : result (list Z)
}.

Module Main.
Import PyStr.

(** The variables of the loop of [ingest_documents], with the store and
    the disk it writes. *)
Record ingest_state := mkIngest {
  in_db : DocumentStore;
  in_fs : filesystem;
  in_document_ids : list string;
  in_processed_count : nat;
  in_errors : list string
}.

Section Routes.
Context `{Provider} `{JsonDecoder} `{Pydantic} `{Runtime}.

Definition skipped (st : ingest_state) (file : UploadFile) : ingest_state :=
  mkIngest (in_db st) (in_fs st) (in_document_ids st)
    (in_processed_count st)
    (List.app (in_errors st)
       ["Skipped " ++ filename file ++ " - not a PDF"]).

(** The [except Exception] of the loop; [fs] is the disk as the
    statements before the exception left it. *)
Definition errored (st : ingest_state) (fs : filesystem)
    (file : UploadFile) (e : exn) : ingest_state :=
  mkIngest (in_db st) fs (in_document_ids st) (in_processed_count st)
    (List.app (in_errors st)
       ["Error processing " ++ filename file ++ ": " ++ exn_str e]).

(** One iteration of [for file in files]. *)
Definition ingest_file (st : ingest_state) (file : UploadFile)
  : ingest_state :=
  if negb (endswith ".pdf" (filename file)) then skipped st file
  else
    match read file with
    | Raise e => errored st (in_fs st) file e
    | Ok content =>
        match PDFService.save_uploaded_file (in_fs st) content
                (filename file) "uploads" with
        | Raise e => errored st (in_fs st) file e
        | Ok (fs, file_path) =>
            match PDFService.extract_text_from_pdf fs file_path with
            | Raise e => errored st fs file e
            | Ok (text, page_count) =>
                let doc_id :=
                  PDFService.generate_document_id (filename file) text in
                mkIngest
                  (Db.store_document (in_db st) doc_id (filename file)
                     text (Some [("page_count", page_count)]))
                  fs
                  (List.app (in_document_ids st) [doc_id])
                  (in_processed_count st + 1)
                  (in_errors st)
            end
        end
    end.

Definition ingest_documents (db : DocumentStore) (fs : filesystem)
    (files : list UploadFile) : ingest_state * http IngestResponse :=
  match files with
  | [] => (mkIngest db fs [] 0 [], HTTPException 400 "No files provided")
  | _ :: _ =>
      let st := fold_left ingest_file files (mkIngest db fs [] 0 []) in
      if Nat.eqb (in_processed_count st) 0
      then
        let error_detail := "No valid PDF files processed" in
        let error_detail :=
          match in_errors st with
          | [] => error_detail
          | _ :: _ =>
              error_detail ++ ". Errors: " ++ join "; " (in_errors st)
          end in
        (st, HTTPException 400 error_detail)
      else
        (st,
         Response
           (mkIngestResponse (in_document_ids st)
              ("Successfully ingested " ++ str (in_processed_count st)
                 ++ " document(s)")
              (in_processed_count st)))
  end.

Definition extract_fields (db : DocumentStore) (document_id : string)
  : DocumentStore * http ExtractedFields :=
  match Db.get_document db document_id with
  | None => (db, HTTPException 404 "Document not found")
  | Some doc =>
      let db := Db.increment_metric db "total_extractions" in
      match ExtractionService.extract_fields (doc_text doc) with
      | Ok extracted => (db, Response extracted)
      | Raise e =>
          (db, HTTPException 500 ("Extraction failed: " ++ exn_str e))
      end
  end.

Definition ask_question (db : DocumentStore) (question : string)
    (document_ids : option (list string))
  : DocumentStore * http AskResponse :=
  if negb (PyStr.truthy question)
  then (db, HTTPException 400 "Question is required")
  else
    let db := Db.increment_metric db "total_questions" in
    (db, Response (RAGService.answer_question db question document_ids)).

(** The events that [event_generator] yields. *)
Definition event_generator (db : DocumentStore) (question : string)
    (doc_id_list : option (list string)) : list string :=
  List.app
    (map (fun chunk => "data: " ++ chunk ++ nl ++ nl)
         (RAGService.answer_question_stream db question doc_id_list))
    ["data: [DONE]" ++ nl ++ nl].

(** [document_ids.split(',') if document_ids else None] *)
Definition doc_id_list (document_ids : option string) : option (list string) :=
  match document_ids with
  | Some ((String _ _) as ids) => Some (split_comma ids)
  | _ => None
  end.

Definition ask_question_stream (db : DocumentStore) (question : string)
    (document_ids : option string) : http (list string) :=
  if negb (PyStr.truthy question)
  then HTTPException 400 "Question is required"
  else Response (event_generator db question (doc_id_list document_ids)).

Definition audit_document (db : DocumentStore) (document_id : string)
  : DocumentStore * http (list AuditFinding) :=
  if negb (Db.document_exists db document_id)
  then (db, HTTPException 404 "Document not found")
  else
    let db := Db.increment_metric db "total_audits" in
    (db, Response (AuditService.audit_document db document_id)).

Context `{Outbound}.

(** [GET /] *)
Definition root : dict string :=
  [("message", "Contract Intelligence API"); ("version", "1.0.0");
   ("docs", "/docs"); ("health", "/healthz")].

(** [send_webhook]: the lines it prints.  No exception leaves it. *)
Definition send_webhook (url : string) (data : WebhookPayload)
  : list string :=
  match post url data with
  | Ok _ => []
  | Raise e => ["Webhook failed: " ++ exn_str e]
  end.

(** [POST /webhook/events].  [tasks] are the background tasks queued so
    far, each a call of [send_webhook] that has yet to run. *)
Definition trigger_webhook_event (tasks : list (string * WebhookPayload))
    (event_type document_id : string) (data : option (dict json))
  : list (string * WebhookPayload) * WebhookReply :=
  match WEBHOOK_URL with
  | Some ((String _ _) as webhook_url) =>
      let payload :=
        mkWebhookPayload event_type document_id now_isoformat
          (match data with Some d => d | None => [] end) in
      (List.app tasks [(webhook_url, payload)],
       mkWebhookReply "Webhook event queued" (Some payload))
  | _ => (tasks, mkWebhookReply "Webhook URL not configured" None)
  end.

(** [GET /healthz] *)
Definition health_check : HealthResponse :=
  mkHealthResponse "healthy" now_isoformat "1.0.0".

(** [GET /metrics] *)
Definition get_metrics (db : DocumentStore) : dict nat := Db.get_metrics db.

(** [GET /documents] *)
Definition list_documents (db : DocumentStore) : DocumentListing :=
  let docs := Db.get_all_documents db in
  mkDocumentListing (List.length docs)
    (map (fun doc =>
            mkDocumentSummary (doc_id doc) (doc_filename doc)
              (doc_uploaded_at doc) (doc_page_count doc))
         docs).

End Routes.
End Main.

(* ===================================================================== *)
(** * A decoder of JSON texts *)
(* ===================================================================== *)

(** An instance of [JsonDecoder] that runs: the grammar [json.loads]
    accepts, for texts whose strings hold code points below 256.  The
    constants [NaN] and [Infinity] and the escapes of higher code points have
    no value in [json] and are refused. *)
Module JsonText.
Import PyStr.
Local Open Scope char_scope.

Definition is_ws (c : ascii) : bool :=
  Ascii.eqb c " " || Ascii.eqb c (ascii_of_nat 9)
  || Ascii.eqb c (ascii_of_nat 10) || Ascii.eqb c (ascii_of_nat 13).

Fixpoint skip_ws (s : string) : string :=
  match s with
  | String c s' => if is_ws c then skip_ws s' else s
  | EmptyString => EmptyString
  end.

Definition hex_value (c : ascii) : option nat :=
  let n := nat_of_ascii c in
  if ((48 <=? n) && (n <=? 57))%nat then Some (n - 48)
  else if ((97 <=? n) && (n <=? 102))%nat then Some (n - 87)
  else if ((65 <=? n) && (n <=? 70))%nat then Some (n - 55)
  else None.

Definition escape (c : ascii) : option ascii :=
  if Ascii.eqb c (ascii_of_nat 34) then Some (ascii_of_nat 34)
  else if Ascii.eqb c "\" then Some "\"
  else if Ascii.eqb c "/" then Some "/"
  else if Ascii.eqb c "b" then Some (ascii_of_nat 8)
  else if Ascii.eqb c "f" then Some (ascii_of_nat 12)
  else if Ascii.eqb c "n" then Some (ascii_of_nat 10)
  else if Ascii.eqb c "r" then Some (ascii_of_nat 13)
  else if Ascii.eqb c "t" then Some (ascii_of_nat 9)
  else None.

Definition prepend (c : ascii) (r : option (string * string))
  : option (string * string) :=
  match r with
  | Some (body, rest) => Some (String c body, rest)
  | None => None
  end.

(** The characters of a string after its opening quote, and what follows
    the closing one. *)
Fixpoint scan_string (s : string) : option (string * string) :=
  match s with
  | EmptyString => None
  | String c r =>
      if Ascii.eqb c (ascii_of_nat 34) then Some (EmptyString, r)
      else if Ascii.eqb c "\" then
        match r with
        | String "u" (String h1 (String h2 (String h3 (String h4 r')))) =>
            match hex_value h1, hex_value h2, hex_value h3, hex_value h4 with
            | Some a, Some b, Some c, Some d =>
                let n := ((a * 16 + b) * 16 + c) * 16 + d in
                if (n <? 256)%nat
                then prepend (ascii_of_nat n) (scan_string r')
                else None
            | _, _, _, _ => None
            end
        | String e r' =>
            match escape e with
            | Some x => prepend x (scan_string r')
            | None => None
            end
        | EmptyString => None
        end
      else if (nat_of_ascii c <? 32)%nat then None
      else prepend c (scan_string r)
  end.

Definition nonempty_digits (s : string) : option (string * string) :=
  match span_digits s with
  | (String d ds, rest) => Some (String d ds, rest)
  | _ => None
  end.

(** A number: its value and what follows it. *)
Definition scan_number (s : string) : option (json * string) :=
  let (negative, s1) :=
    match s with
    | String "-" r => (true, r)
    | _ => (false, s)
    end in
  let whole :=
    match s1 with
    | String "0" r => Some ("0"%string, r)
    | _ => nonempty_digits s1
    end in
  match whole with
  | None => None
  | Some (ip, s2) =>
      let (frac, s3) :=
        match s2 with
        | String "." r =>
            match nonempty_digits r with
            | Some (fs, r') => (Some fs, r')
            | None => (None, s2)
            end
        | _ => (None, s2)
        end in
      let (expo, s4) :=
        match s3 with
        | String e r =>
            if Ascii.eqb e "e" || Ascii.eqb e "E" then
              let (minus, r1) :=
                match r with
                | String "-" r' => (true, r')
                | String "+" r' => (false, r')
                | _ => (false, r)
                end in
              match nonempty_digits r1 with
              | Some (es, r') =>
                  (Some (if minus then (- Z.of_nat (int es))%Z
                         else Z.of_nat (int es)), r')
              | None => (None, s3)
              end
            else (None, s3)
        | EmptyString => (None, s3)
        end in
      let sign := fun z : Z => if negative then (- z)%Z else z in
      match frac, expo with
      | None, None => Some (JInt (sign (Z.of_nat (int ip))), s4)
      | _, _ =>
          let fs := match frac with Some f => f | None => EmptyString end in
          let e := match expo with Some e => e | None => 0%Z end in
          let m := sign (Z.of_nat (int (ip ++ fs))) in
          let k := (e - Z.of_nat (String.length fs))%Z in
          Some (JFloat (if (0 <=? k)%Z then Qmake (m * 10 ^ k) 1
                        else Qmake m (Z.to_pos (10 ^ (- k)))), s4)
      end
  end.

Fixpoint value (fuel : nat) (s : string) : option (json * string) :=
  match fuel with
  | O => None
  | S fuel' =>
      match s with
      | EmptyString => None
      | String c r =>
          if Ascii.eqb c (ascii_of_nat 34) then
            match scan_string r with
            | Some (body, rest) => Some (JStr body, rest)
            | None => None
            end
          else if Ascii.eqb c "[" then
            match skip_ws r with
            | String "]" rest => Some (JArr [], rest)
            | r' => items fuel' r' []
            end
          else if Ascii.eqb c "{" then
            match skip_ws r with
            | String "}" rest => Some (JObj [], rest)
            | r' => members fuel' r' []
            end
          else if startswith "null" s then Some (JNull, drop 4 s)
          else if startswith "true" s then Some (JBool true, drop 4 s)
          else if startswith "false" s then Some (JBool false, drop 5 s)
          else scan_number s
      end
  end

with items (fuel : nat) (s : string) (acc : list json)
  : option (json * string) :=
  match fuel with
  | O => None
  | S fuel' =>
      match value fuel' s with
      | None => None
      | Some (v, r) =>
          match skip_ws r with
          | String "]" rest => Some (JArr (rev (v :: acc)), rest)
          | String "," rest => items fuel' (skip_ws rest) (v :: acc)
          | _ => None
          end
      end
  end

with members (fuel : nat) (s : string) (acc : dict json)
  : option (json * string) :=
  match fuel with
  | O => None
  | S fuel' =>
      match s with
      | String c r =>
          if Ascii.eqb c (ascii_of_nat 34) then
            match scan_string r with
            | None => None
            | Some (key, r1) =>
                match skip_ws r1 with
                | String ":" r2 =>
                    match value fuel' (skip_ws r2) with
                    | None => None
                    | Some (v, r3) =>
                        let acc' := dict_set acc key v in
                        match skip_ws r3 with
                        | String "}" rest => Some (JObj acc', rest)
                        | String "," rest =>
                            members fuel' (skip_ws rest) acc'
                        | _ => None
                        end
                    end
                | _ => None
                end
            end
          else None
      | EmptyString => None
      end
  end.

Definition decode (s : string) : result json :=
  match value (2 * String.length s + 2) (skip_ws s) with
  | Some (v, rest) =>
      match skip_ws rest with
      | EmptyString => Ok v
      | String _ _ => Raise (JSONDecodeError "Extra data")
      end
  | None => Raise (JSONDecodeError "Expecting value")
  end.

End JsonText.

(* ===================================================================== *)
(** * Collaborators to run the services with *)
(* ===================================================================== *)

(** Instances of the interfaces, for the examples: a provider with a fixed
    reply, the decoder above, a validation that accepts a value of the
    declared type only, and a reader for files made of the bytes of [%PDF]
    followed by the texts of the pages, one form feed between two pages. *)
Module Sample.
Import PyStr.

Definition replying (reply : string) : Provider :=
  {| generate := fun _ => Ok reply;
     generate_stream := fun _ => ([reply], None) |}.

Definition failing (msg : string) : Provider :=
  {| generate := fun _ => Raise (Exception msg);
     generate_stream := fun _ => ([], Some (Exception msg)) |}.

Definition decoder : JsonDecoder := {| loads := JsonText.decode |}.

Definition pydantic : Pydantic :=
  {| validate_str := fun v => match v with JStr s => Some s | _ => None end;
     validate_float := fun v =>
       match v with
       | JInt z => Some (Qmake z 1)
       | JFloat x => Some x
       | _ => None
       end;
     validation_error := fun model fields =>
       "validation error for " ++ model ++ ": " ++ join ", " fields |}.

Fixpoint text_of (bytes : list Z) : string :=
  match bytes with
  | [] => EmptyString
  | b :: bytes' => String (ascii_of_nat (Z.to_nat b)) (text_of bytes')
  end.

(** The texts between the form feeds. *)
Fixpoint pages_of (bytes : list Z) : list string :=
  match bytes with
  | [] => [EmptyString]
  | b :: bytes' =>
      if Z.eqb b 12 then EmptyString :: pages_of bytes'
      else match pages_of bytes' with
           | p :: ps => String (ascii_of_nat (Z.to_nat b)) p :: ps
           | [] => [String (ascii_of_nat (Z.to_nat b)) EmptyString]
           end
  end.

Definition reader (file : list Z) : result (list (result string)) :=
  match file with
  | 37%Z :: 80%Z :: 68%Z :: 70%Z :: body => Ok (map Ok (pages_of body))
  | _ => Raise (Exception "EOF marker not found")
  end.

Definition runtime : Runtime :=
  {| attribute_error := fun v name =>
       "'" ++ Json.type_name v ++ "' object has no attribute '" ++ name
           ++ "'";
     not_iterable := fun v =>
       "'" ++ Json.type_name v ++ "' object is not iterable";
     not_a_mapping := fun model v =>
       model ++ "() argument after ** must be a mapping, not "
             ++ Json.type_name v;
     file_not_found := fun path =>
       "[Errno 2] No such file or directory: '" ++ path ++ "'";
     now_isoformat := "2024-01-01T00:00:00";
     write_fault := fun _ => None;
     PdfReader := reader |}.

(** The bytes of a file: [%PDF] and the text that follows. *)
Definition pdf (body : string) : list Z := MD5.encode ("%PDF" ++ body).

(** An upload whose [read()] succeeds. *)
Definition upload (name : string) (bytes : list Z) : UploadFile :=
  mkUploadFile name (Ok bytes).

(** A lease of two pages. *)
Definition lease : string :=
  "Lease between A and B." ++ String (ascii_of_nat 12) "Signed by A.".

(** The store after the lease was ingested as [lease.pdf]. *)
Definition store : DocumentStore :=
  Main.in_db (fst (@Main.ingest_documents runtime Db.init []
                [upload "lease.pdf" (pdf lease)])).

Definition lease_id : string :=
  Eval vm_compute in
    match documents store with
    | (k, _) :: _ => k
    | [] => EmptyString
    end.

(** The entry of the lease in the store. *)
Definition lease_doc : Document :=
  Eval vm_compute in
    match documents store with
    | (_, d) :: _ => d
    | [] => mkDocument EmptyString EmptyString EmptyString [] EmptyString 0
    end.

(** A reply inside a fence that holds no JSON. *)
Definition fenced_apology : string :=
  "```json" ++ nl ++ "I could not read the contract." ++ nl ++ "```".

(** A text of [n] characters. *)
Fixpoint filler (n : nat) : string :=
  match n with
  | O => EmptyString
  | S n' => String "x" (filler n')
  end.

(** Replies for the examples of the structured services: an object with
    two [null] members, an object whose [parties] member is [null], and an
    array of an empty object and a number. *)
Definition blank_reply : string :=
  "{" ++ dq ++ "note" ++ dq ++ ": null, " ++ dq ++ "term" ++ dq ++ ": null}".

Definition null_parties_reply : string :=
  "{" ++ dq ++ "parties" ++ dq ++ ": null}".

Definition mixed_reply : string := "[{}, 3]".

(** An upload whose bytes are no PDF. *)
Definition scan : UploadFile := upload "scan.pdf" (MD5.encode "not a PDF").

End Sample.

(* ===================================================================== *)
(** * The vocabulary of the properties *)
(* ===================================================================== *)

(** [p] occurs in [s]. *)
Definition occurs (p s : string) : Prop := exists a b, s = a ++ p ++ b.

Module PageText.
Import PyStr.

(** The text of one page under its marker: a line reading [[PAGE n]],
    then the page's text, then a line feed. *)
Definition block (n : nat) (page_text : string) : string :=
  "[PAGE " ++ str n ++ "]" ++ nl ++ page_text ++ nl.

(** The blocks of the pages in page order, the first numbered [n]. *)
Fixpoint blocks (n : nat) (texts : list string) : list string :=
  match texts with
  | [] => []
  | t :: texts' => block n t :: blocks (S n) texts'
  end.

(** The text the specification describes: the blocks one after another,
    a line feed between two, trimmed on the right. *)
Definition annotated (texts : list string) : string :=
  rstrip (join nl (blocks 1 texts)).

End PageText.

Module Marker.
Import PyStr.






End Marker.

(** The citation of one candidate: one when its identifier or its filename
    occurs in the answer, none otherwise. *)
Definition cite (answer : string) (doc : Document) : list Citation :=
  if PyStr.contains (doc_id doc) answer
     || PyStr.contains (doc_filename doc) answer
  then [mkCitation (doc_id doc) (RAGService.first_page
                      (RAGService.findall_pages (doc_text doc)))
                   None None (PyStr.take 200 (doc_text doc))]
  else [].


Module Store.

(** No string stands twice in the list. *)
Fixpoint distinct (l : list string) : bool :=
  match l with
  | [] => true
  | x :: l' => negb (existsb (String.eqb x) l') && distinct l'
  end.

(** The invariant of [DocumentStore.documents]: the keys differ, and every
    entry stands under its own identifier. *)
Definition consistent (db : DocumentStore) : bool :=
  distinct (dict_keys (documents db))
  && forallb (fun kd => String.eqb (fst kd) (doc_id (snd kd))) (documents db).

(** The stores the methods of [DocumentStore] lead to. *)
Inductive reachable `{Runtime} : DocumentStore -> Prop :=
| reach_init : reachable Db.init
| reach_store db id filename text metadata :
    reachable db ->
    reachable (Db.store_document db id filename text metadata)
| reach_increment db name :
    reachable db -> reachable (Db.increment_metric db name).

End Store.

(** Every field of the record is empty or absent. *)
Definition all_absent (f : ExtractedFields) : Prop :=
  parties f = [] /\ signatories f = []
  /\ effective_date f = None /\ term f = None /\ governing_law f = None
  /\ payment_terms f = None /\ termination f = None /\ auto_renewal f = None
  /\ confidentiality f = None /\ indemnity f = None
  /\ liability_cap f = None.


Module Batch.

Definition page_ok (page : result string) : bool :=
  match page with Ok _ => true | Raise _ => false end.

(** The file passes every statement of the loop body: its name ends in
    [.pdf], it is read and saved, and the reader gives every page's text. *)
Definition processed `{Runtime} (file : UploadFile) : bool :=
  PyStr.endswith ".pdf" (filename file)
  && match read file with
     | Ok content =>
         match write_fault (PDFService.path_join "uploads" (filename file)) with
         | None =>
             match PdfReader content with
             | Ok pages => forallb page_ok pages
             | Raise _ => false
             end
         | Some _ => false
         end
     | Raise _ => false
     end.

Definition failed `{Runtime} (file : UploadFile) : bool :=
  negb (processed file).


End Batch.

(** Further vocabulary, for the properties of the code around the
    services. *)
Module Shape.

(** The names of the counters of [DocumentStore.metrics]. *)
Definition counter_names : list string :=
  ["total_ingests"; "total_extractions"; "total_questions"; "total_audits"].

(** The value of a counter; 0 for a name that is no counter. *)
Definition counter (db : DocumentStore) (name : string) : nat :=
  match dict_get (metrics db) name with Some n => n | None => 0 end.

(** A digit of a lower-case hexadecimal number. *)
Definition is_lower_hex (c : ascii) : bool :=
  let n := nat_of_ascii c in
  ((48 <=? n) && (n <=? 57) || (97 <=? n) && (n <=? 102))%nat.

(** The most characters the documents can add to a context: for each, its
    identifier, 5000 characters of text and the 16 of the frame. *)
Fixpoint context_budget (docs : list Document) : nat :=
  match docs with
  | [] => 0
  | d :: docs' => String.length (doc_id d) + 16 + 5000 + context_budget docs'
  end.

(** An event of the stream: a [data:] line and an empty line. *)
Definition framed (event : string) : bool :=
  PyStr.startswith "data: " event
  && PyStr.endswith (PyStr.nl ++ PyStr.nl) event.

(** The keys of the reply whose value is a text. *)
Definition text_keys : list string :=
  ["effective_date"; "term"; "governing_law"; "payment_terms"; "termination";
   "auto_renewal"; "confidentiality"; "indemnity"].

(** The member is missing or [null]. *)
Definition blank (m : dict json) (key : string) : bool :=
  match dict_get m key with
  | None | Some JNull => true
  | Some _ => false
  end.

(** A character other than the backquote. *)
Definition no_backquote (c : ascii) : bool := negb (Ascii.eqb c "`"%char).

Definition is_object (v : json) : bool :=
  match v with JObj _ => true | _ => false end.

(** A finding of the two [except] branches of the audit. *)
Definition fallback (f : AuditFinding) : Prop :=
  severity f = "low" /\ clause_type f = "other" /\ finding_page f = None.

End Shape.

Unset Implicit Arguments.

(* ===================================================================== *)
(** * Runs of the embedding *)
(* ===================================================================== *)

(** The digests of RFC 1321. *)
Example md5_of_nothing :
  MD5.hexdigest (MD5.encode EmptyString) = "d41d8cd98f00b204e9800998ecf8427e".
Proof. vm_compute. reflexivity. Qed.

Example md5_of_abc :
  MD5.hexdigest (MD5.encode "abc") = "900150983cd24fb0d6963f7d28e17f72".
Proof. vm_compute. reflexivity. Qed.

Example md5_of_two_blocks :
  MD5.hexdigest
    (MD5.encode
       "12345678901234567890123456789012345678901234567890123456789012345678901234567890")
  = "57edf4a22be3c955ac49da2e2107b67a".
Proof. vm_compute. reflexivity. Qed.

(** The identifier of the lease: the digest of [lease.pdf_] and the text. *)
Example lease_identifier :
  PDFService.generate_document_id "lease.pdf" (doc_text Sample.lease_doc)
  = "d759de4824d31884bf960f80b7bb8b9d".
Proof. vm_compute. reflexivity. Qed.

Example strip_both_ends :
  PyStr.strip (PyStr.nl ++ "  [PAGE 1] x " ++ PyStr.nl) = "[PAGE 1] x".
Proof. reflexivity. Qed.

Example replace_leftmost : PyStr.replace "aa" "b" "aaaaa" = "bba".
Proof. reflexivity. Qed.

Example split_keeps_empty_fields :
  PyStr.split_comma "a,,b," = ["a"; EmptyString; "b"; EmptyString].
Proof. reflexivity. Qed.

Example strip_fence_tagged :
  Reply.strip_fence ("```json" ++ PyStr.nl ++ "[1]" ++ PyStr.nl ++ "```")
  = "[1]".
Proof. reflexivity. Qed.

Example strip_fence_bare :
  Reply.strip_fence ("```" ++ PyStr.nl ++ "{}" ++ PyStr.nl ++ "```") = "{}".
Proof. reflexivity. Qed.

Example findall_pages_in_order :
  RAGService.findall_pages "[PAGE 12] a [PAGE x] b [PAGE 3]" = ["12"; "3"].
Proof. reflexivity. Qed.

Example findall_pages_inner_marker :
  RAGService.findall_pages "[PAGE 1[PAGE 22]]" = ["22"].
Proof. reflexivity. Qed.

Example first_page_leading_zeros :
  RAGService.first_page (RAGService.findall_pages "see [PAGE 007]") = Some 7.
Proof. reflexivity. Qed.

Example decode_array_of_objects :
  JsonText.decode ("[{" ++ PyStr.dq ++ "severity" ++ PyStr.dq ++ ": "
                        ++ PyStr.dq ++ "high" ++ PyStr.dq ++ "}, {}]")
  = Ok (JArr [JObj [("severity", JStr "high")]; JObj []]).
Proof. reflexivity. Qed.

Example decode_trailing_comma :
  JsonText.decode "[1,]" = Raise (JSONDecodeError "Expecting value").
Proof. reflexivity. Qed.

(** One finding per element of the decoded array, defaults filled in. *)
Example audit_of_two_findings :
  @AuditService.audit_document
    (Sample.replying
       ("[{" ++ PyStr.dq ++ "severity" ++ PyStr.dq ++ ": "
             ++ PyStr.dq ++ "high" ++ PyStr.dq ++ "}, {}]"))
    Sample.decoder Sample.pydantic Sample.runtime Sample.store Sample.lease_id
  = [mkAuditFinding "high" "other" EmptyString EmptyString Sample.lease_id
                    None None;
     mkAuditFinding "low" "other" EmptyString EmptyString Sample.lease_id
                    None None].
Proof. reflexivity. Qed.

(** A failing provider gives one finding that carries the error. *)
Example audit_of_provider_failure :
  @AuditService.audit_document (Sample.failing "quota exceeded")
    Sample.decoder Sample.pydantic Sample.runtime Sample.store Sample.lease_id
  = [mkAuditFinding "low" "other" "Audit error: quota exceeded" EmptyString
                    Sample.lease_id None None].
Proof. reflexivity. Qed.

(** A reply that is JSON, but no object, is an extraction failure. *)
Example extract_of_array :
  @ExtractionService.extract_fields (Sample.replying "[]") Sample.decoder
    Sample.pydantic Sample.runtime (doc_text Sample.lease_doc)
  = Raise (Exception
             "Extraction error: 'list' object has no attribute 'get'").
Proof. reflexivity. Qed.

(** A batch in which every file fails. *)
Example ingest_of_no_pdf :
  snd (@Main.ingest_documents Sample.runtime Db.init []
         [Sample.upload "notes.txt" (MD5.encode "Call the landlord.");
          Sample.upload "scan.pdf" (MD5.encode "not a PDF")])
  = HTTPException 400
      "No valid PDF files processed. Errors: Skipped notes.txt - not a PDF; Error processing scan.pdf: Error extracting text from PDF: EOF marker not found".
Proof. vm_compute. reflexivity. Qed.

(** The stream of a provider that fails after two chunks, one of them
    empty. *)
Example stream_of_failure :
  @Main.event_generator
    {| generate := fun _ => Raise (Exception "down");
       generate_stream := fun _ =>
         (["It "; EmptyString; "is."], Some (Exception "reset")) |}
    Sample.store "What is it?" None
  = ["data: It " ++ PyStr.nl ++ PyStr.nl;
     "data: is." ++ PyStr.nl ++ PyStr.nl;
     "data: Error: reset" ++ PyStr.nl ++ PyStr.nl;
     "data: [DONE]" ++ PyStr.nl ++ PyStr.nl].
Proof. reflexivity. Qed.

(* ===================================================================== *)
(** * Facts about strings *)
(* ===================================================================== *)

Section StringFacts.
Import PyStr.

Lemma append_assoc (a b c : string) : (a ++ b) ++ c = a ++ b ++ c.
Proof.
  induction a as [|x a IH]; simpl; [reflexivity | now rewrite IH].
Qed.

Lemma append_empty_r (a : string) : a ++ EmptyString = a.
Proof.
  induction a as [|x a IH]; simpl; [reflexivity | now rewrite IH].
Qed.

Lemma length_append (a b : string) :
  String.length (a ++ b) = String.length a + String.length b.
Proof.
  induction a as [|x a IH]; simpl; [reflexivity | now rewrite IH].
Qed.

Lemma append_cancel_l (a b c : string) : a ++ b = a ++ c -> b = c.
Proof.
  induction a as [|x a IH]; simpl; intros E; [exact E|].
  injection E as E. now apply IH.
Qed.

Lemma take_drop (n : nat) (s : string) : take n s ++ drop n s = s.
Proof.
  revert s; induction n as [|n IH]; intros [|c s]; simpl;
    try reflexivity.
  now rewrite IH.
Qed.

Lemma length_take (n : nat) (s : string) :
  String.length (take n s) = Nat.min n (String.length s).
Proof.
  revert s; induction n as [|n IH]; intros [|c s]; simpl;
    try reflexivity.
  now rewrite IH.
Qed.

Lemma take_append (a b : string) : take (String.length a) (a ++ b) = a.
Proof.
  induction a as [|x a IH]; simpl; [now destruct b | now rewrite IH].
Qed.

Lemma drop_append (a b : string) : drop (String.length a) (a ++ b) = b.
Proof.
  induction a as [|x a IH]; simpl; [reflexivity | exact IH].
Qed.

(** [startswith] decides being a prefix. *)
Lemma startswith_iff (p s : string) :
  startswith p s = true <-> exists b, s = p ++ b.
Proof.
  revert s; induction p as [|x p IH]; intros s; simpl.
  - split; [intros _; now exists s | reflexivity].
  - destruct s as [|y s].
    + split; [discriminate | intros [b E]; discriminate].
    + rewrite andb_true_iff, Ascii.eqb_eq, IH. split.
      * intros [-> [b ->]]. now exists b.
      * intros [b E]. injection E as -> ->. split; [reflexivity | now exists b].
Qed.


Lemma rstrip_idempotent (s : string) : rstrip (rstrip s) = rstrip s.
Proof.
  induction s as [|c s IH]; [reflexivity|].
  cbn [rstrip]. destruct (rstrip s) as [|a r] eqn:E.
  - destruct (isspace c) eqn:Ec; [reflexivity|].
    cbn [rstrip]. now rewrite Ec.
  - cbn [rstrip]. cbn [rstrip] in IH. now rewrite IH.
Qed.

(** Trimming on the right stops at a character that is not a space. *)
Lemma rstrip_append_char (a : string) (c : ascii) (b : string) :
  isspace c = false -> rstrip (a ++ String c b) = a ++ String c (rstrip b).
Proof.
  intros Hc. induction a as [|x a IH].
  - cbn [append rstrip]. destruct (rstrip b); [now rewrite Hc | reflexivity].
  - cbn [append rstrip]. rewrite IH. now destruct a.
Qed.

Lemma lstrip_bracket (s : string) :
  lstrip (nl ++ String "["%char s) = String "["%char s.
Proof. reflexivity. Qed.

End StringFacts.

(* ===================================================================== *)
(** * The PDF extraction adapter *)
(* ===================================================================== *)

Section PdfExtraction.
Import PyStr PageText.
Context `{Runtime}.

Lemma join_cons (b : string) (bs : list string) :
  nl ++ join nl (b :: bs) =
  nl ++ b ++ match bs with [] => EmptyString | _ => nl ++ join nl bs end.
Proof.
  destruct bs; cbn [join]; [now rewrite append_empty_r | reflexivity].
Qed.

(** The loop of [extract_text_from_pdf] appends to [text] the blocks of
    the pages it visits, a line feed before each. *)
Lemma annotate_blocks (texts : list string) (n : nat) (text : string) :
  PDFService.annotate n (map Ok texts) text =
  Ok (text ++ match texts with
              | [] => EmptyString
              | _ => nl ++ join nl (blocks (n + 1) texts)
              end).
Proof.
  revert n text; induction texts as [|t texts IH]; intros n text.
  - cbn. now rewrite append_empty_r.
  - cbn [map PDFService.annotate bind]. rewrite IH.
    cbn [blocks]. rewrite join_cons. f_equal.
    replace (S n + 1) with (S (n + 1)) by lia.
    unfold block. rewrite !append_assoc. now destruct texts.
Qed.

Lemma strip_blocks (n : nat) (texts : list string) :
  strip match texts with
        | [] => EmptyString
        | _ => nl ++ join nl (blocks n texts)
        end = rstrip (join nl (blocks n texts)).
Proof.
  destruct texts as [|t texts]; [reflexivity|].
  unfold strip. f_equal. cbn [blocks].
  assert (E : exists s, join nl (block n t :: blocks (S n) texts)
                        = String "["%char s).
  { destruct (blocks (S n) texts); cbn [join]; unfold block; cbn;
      eexists; reflexivity. }
  destruct E as [s ->]. apply lstrip_bracket.
Qed.

(** C5.  When the file opens and every page gives its text, the text
    returned by PDF extraction is the concatenation, in page order, of the
    pages' texts, each preceded by a line reading [[PAGE n]] with the
    page's number counted from 1, and trimmed on the right; the count
    returned is the number of pages.  The trimmed text has no trailing
    white space, and with at least one page it still begins with the
    marker of page 1. *)
Theorem extract_text_from_pdf_page_markers
    (fs : filesystem) (pdf_path : string) (file : list Z)
    (texts : list string) :
  PDFService.open_rb fs pdf_path = Ok file ->
  PdfReader file = Ok (map Ok texts) ->
  PDFService.extract_text_from_pdf fs pdf_path
    = Ok (annotated texts, List.length texts)
  /\ rstrip (annotated texts) = annotated texts
  /\ (texts <> [] -> startswith "[PAGE 1]" (annotated texts) = true).
Proof.
  intros Hopen Hread. split; [|split].
  - unfold PDFService.extract_text_from_pdf.
    rewrite Hopen. cbn [bind]. rewrite Hread. cbn [bind].
    rewrite annotate_blocks. cbn [bind try_except append].
    rewrite length_map. unfold annotated.
    now rewrite (strip_blocks (0 + 1) texts).
  - apply rstrip_idempotent.
  - intros Hne. destruct texts as [|t texts]; [contradiction|].
    unfold annotated. cbn [blocks].
    assert (E : exists s, join nl (block 1 t :: blocks 2 texts)
                          = "[PAGE 1" ++ String "]"%char s).
    { destruct (blocks 2 texts); cbn [join]; unfold block; cbn;
        eexists; reflexivity. }
    destruct E as [s ->].
    rewrite rstrip_append_char by reflexivity. reflexivity.
Qed.

End PdfExtraction.

(** The sample reader on the lease: two pages under their markers. *)
Lemma extract_text_from_pdf_page_markers_witness :
  @PDFService.open_rb Sample.runtime
    [("uploads/lease.pdf", Sample.pdf Sample.lease)] "uploads/lease.pdf"
  = Ok (Sample.pdf Sample.lease)
  /\ @PdfReader Sample.runtime (Sample.pdf Sample.lease)
     = Ok (map Ok ["Lease between A and B."; "Signed by A."])
  /\ @PDFService.extract_text_from_pdf Sample.runtime
       [("uploads/lease.pdf", Sample.pdf Sample.lease)] "uploads/lease.pdf"
     = Ok (PageText.annotated ["Lease between A and B."; "Signed by A."], 2)
  /\ PyStr.rstrip
       (PageText.annotated ["Lease between A and B."; "Signed by A."])
     = PageText.annotated ["Lease between A and B."; "Signed by A."]
  /\ (["Lease between A and B."; "Signed by A."] <> [] ->
      PyStr.startswith "[PAGE 1]"
        (PageText.annotated ["Lease between A and B."; "Signed by A."])
      = true).
Proof.
  split; [reflexivity|]. split; [reflexivity|].
  apply (@extract_text_from_pdf_page_markers Sample.runtime
           [("uploads/lease.pdf", Sample.pdf Sample.lease)]
           "uploads/lease.pdf" (Sample.pdf Sample.lease)
           ["Lease between A and B."; "Signed by A."]);
    reflexivity.
Defined.

(** X8.  The text extracted from a PDF with at least one page is cited at
    page 1, whatever the pages hold: the first marker the citation
    heuristic finds is the one extraction wrote first. *)
Lemma first_page_of_annotated (texts : list string) :
  texts <> [] ->
  RAGService.first_page (RAGService.findall_pages (PageText.annotated texts))
  = Some 1.
Proof.
  intros Hne. destruct texts as [|t texts]; [contradiction|].
  unfold PageText.annotated. cbn [PageText.blocks].
  assert (E : exists s,
            PyStr.join PyStr.nl
              (PageText.block 1 t :: PageText.blocks 2 texts)
            = "[PAGE 1" ++ String "]"%char s).
  { destruct (PageText.blocks 2 texts); cbn [PyStr.join];
      unfold PageText.block; cbn; eexists; reflexivity. }
  destruct E as [s ->]. rewrite rstrip_append_char by reflexivity.
  reflexivity.
Qed.

(* ===================================================================== *)
(** * The document identifier *)
(* ===================================================================== *)

(** C6.  The identifier depends on the filename and on the first 1000
    characters of the text only: two calls with the same filename and texts
    that agree on their first 1000 characters return the same identifier. *)
Theorem generate_document_id_leading_text
    (f1 f2 t1 t2 : string) :
  f1 = f2 ->
  PyStr.take 1000 t1 = PyStr.take 1000 t2 ->
  PDFService.generate_document_id f1 t1 = PDFService.generate_document_id f2 t2.
Proof.
  intros -> Htake. unfold PDFService.generate_document_id.
  now rewrite Htake.
Qed.

(** Two texts that part after their first 1000 characters. *)
Lemma generate_document_id_leading_text_witness :
  "lease.pdf" = "lease.pdf"
  /\ PyStr.take 1000 (Sample.filler 1000 ++ "first draft")
     = PyStr.take 1000 (Sample.filler 1000 ++ "second draft")
  /\ PDFService.generate_document_id "lease.pdf"
       (Sample.filler 1000 ++ "first draft")
     = PDFService.generate_document_id "lease.pdf"
         (Sample.filler 1000 ++ "second draft").
Proof.
  split; [reflexivity|]. split; [vm_compute; reflexivity|].
  apply (generate_document_id_leading_text "lease.pdf" "lease.pdf"
           (Sample.filler 1000 ++ "first draft")
           (Sample.filler 1000 ++ "second draft"));
    [reflexivity | vm_compute; reflexivity].
Defined.

(* ===================================================================== *)
(** * The citation heuristic *)
(* ===================================================================== *)

Section CitationFacts.
Import PyStr RAGService Marker.








Lemma extract_citations_from (answer : string) (docs : list Document)
    (citations : list Citation) :
  fold_left
    (fun citations doc =>
       let doc_id := doc_id doc in
       let pages := findall_pages (doc_text doc) in
       if contains doc_id answer || contains (doc_filename doc) answer
       then List.app citations
              [mkCitation doc_id (first_page pages) None None
                          (take 200 (doc_text doc))]
       else citations)
    docs citations
  = List.app citations (flat_map (cite answer) docs).
Proof.
  revert citations; induction docs as [|d docs IH]; intros citations.
  - cbn. now rewrite app_nil_r.
  - cbn [fold_left flat_map]. rewrite IH. unfold cite at 2.
    destruct (contains (doc_id d) answer || contains (doc_filename d) answer).
    + now rewrite <- app_assoc.
    + reflexivity.
Qed.

(** The loop of [_extract_citations] visits the candidates in order and
    appends the citation of each. *)
Lemma extract_citations_flat_map (answer : string) (docs : list Document) :
  _extract_citations answer docs = flat_map (cite answer) docs.
Proof. unfold _extract_citations. now rewrite extract_citations_from. Qed.





End CitationFacts.

Section StoreFacts.
Import Store.

Lemma distinct_NoDup (l : list string) : distinct l = true -> NoDup l.
Proof.
  induction l as [|x l IH]; cbn; intros D; [constructor|].
  apply andb_true_iff in D as [N D]. constructor; [|now apply IH].
  intros I. apply negb_true_iff in N.
  assert (existsb (String.eqb x) l = true) as E
    by (apply existsb_exists; exists x; split; [exact I | apply String.eqb_refl]).
  congruence.
Qed.

Lemma NoDup_distinct (l : list string) : NoDup l -> distinct l = true.
Proof.
  induction 1 as [|x l N _ IH]; cbn; [reflexivity|].
  rewrite IH, andb_true_r. apply negb_true_iff.
  destruct (existsb (String.eqb x) l) eqn:E; [|reflexivity].
  apply existsb_exists in E as (y & I & E). apply String.eqb_eq in E as <-.
  contradiction.
Qed.

(** Assigning to a key keeps the keys that were there, in their order, and
    adds the key at the end when it is new. *)
Lemma dict_set_keys (V : Type) (d : dict V) (k : string) (v : V) :
  dict_keys (dict_set d k v) =
  if dict_contains d k then dict_keys d else (dict_keys d ++ [k])%list.
Proof.
  unfold dict_contains, dict_keys.
  induction d as [|[k' v'] d IH]; [reflexivity|].
  cbn [dict_set dict_get]. destruct (String.eqb_spec k' k) as [->|N].
  - reflexivity.
  - cbn [map fst]. rewrite IH. now destruct (dict_get d k).
Qed.

Lemma dict_get_In (V : Type) (d : dict V) (k : string) (v : V) :
  dict_get d k = Some v -> In (k, v) d.
Proof.
  induction d as [|[k' v'] d IH]; cbn; [discriminate|].
  destruct (String.eqb_spec k' k) as [->|N].
  - intros [= ->]. now left.
  - intros E. right. now apply IH.
Qed.

Lemma dict_get_keys (V : Type) (d : dict V) (k : string) :
  dict_contains d k = true <-> In k (dict_keys d).
Proof.
  unfold dict_contains. induction d as [|[k' v'] d IH]; cbn.
  - split; [discriminate | contradiction].
  - destruct (String.eqb_spec k' k) as [->|N].
    + split; [now left | reflexivity].
    + rewrite IH. split; [now right | now intros [E|I]].
Qed.

Lemma dict_set_In (V : Type) (d : dict V) (k : string) (v : V) (e : string * V) :
  In e (dict_set d k v) -> e = (k, v) \/ In e d.
Proof.
  induction d as [|[k' v'] d IH]; cbn.
  - intros [<-|[]]. now left.
  - destruct (String.eqb k' k); cbn; intros [<-|I]; auto.
    destruct (IH I); auto.
Qed.

Lemma consistent_set (db : DocumentStore) (entry : Document) (m : dict nat) :
  consistent db = true ->
  consistent (mkDocumentStore
                (dict_set (documents db) (doc_id entry) entry) m) = true.
Proof.
  unfold consistent. cbn [documents]. intros C.
  apply andb_true_iff in C as [D A]. apply andb_true_iff. split.
  - rewrite dict_set_keys.
    destruct (dict_contains (documents db) (doc_id entry)) eqn:E; [exact D|].
    apply NoDup_distinct. apply distinct_NoDup in D.
    apply NoDup_app; [exact D | repeat constructor; intros [] |].
    intros x I [<-|[]]. apply dict_get_keys in I. congruence.
  - apply forallb_forall. intros e I.
    destruct (dict_set_In _ _ _ _ _ I) as [->|I'].
    + apply String.eqb_refl.
    + now apply (proj1 (forallb_forall _ _) A).
Qed.

(** Every store the methods lead to satisfies the invariant. *)
Lemma reachable_consistent `{Runtime} (db : DocumentStore) :
  reachable db -> consistent db = true.
Proof.
  induction 1 as [|db id filename text metadata _ IH|db name _ IH].
  - reflexivity.
  - unfold Db.store_document.
    exact (consistent_set db
             (mkDocument id filename text
                match metadata with Some m => m | None => [] end
                now_isoformat
                match dict_get match metadata with Some m => m | None => [] end
                               "page_count" with
                | Some n => n
                | None => 0
                end) _ IH).
  - unfold Db.increment_metric. now destruct (dict_contains _ _).
Qed.

Lemma consistent_ids (db : DocumentStore) :
  consistent db = true ->
  map doc_id (Db.get_all_documents db) = dict_keys (documents db).
Proof.
  unfold consistent, Db.get_all_documents, dict_values, dict_keys.
  intros C. apply andb_true_iff in C as [_ A].
  induction (documents db) as [|[k d] l IH]; [reflexivity|].
  cbn in *. apply andb_true_iff in A as [E A].
  apply String.eqb_eq in E as ->. now rewrite IH.
Qed.

Lemma consistent_NoDup (db : DocumentStore) :
  consistent db = true -> NoDup (map doc_id (Db.get_all_documents db)).
Proof.
  intros C. rewrite consistent_ids by exact C.
  apply distinct_NoDup. unfold consistent in C.
  now apply andb_true_iff in C as [D _].
Qed.


End StoreFacts.

Section CitationHeuristic.
Import PyStr RAGService Marker.


End CitationHeuristic.


(* ===================================================================== *)
(** * Replies that are not JSON *)
(* ===================================================================== *)

Section StructuredServices.
Import PyStr Reply.
Context `{Provider} `{JsonDecoder} `{Pydantic} `{Runtime}.

Lemma get_document_increment (db : DocumentStore) (name id : string) :
  Db.get_document (Db.increment_metric db name) id = Db.get_document db id.
Proof.
  unfold Db.increment_metric. now destruct (dict_contains _ _).
Qed.

Lemma document_exists_get (db : DocumentStore) (id : string) :
  Db.document_exists db id = true <-> exists d, Db.get_document db id = Some d.
Proof.
  unfold Db.document_exists, Db.get_document, dict_contains.
  destruct (dict_get (documents db) id) as [d|].
  - split; [intros _; now exists d | reflexivity].
  - split; [discriminate | intros [d E]; discriminate].
Qed.

(** C2.  When the reply of the provider, its fenced-code-block wrapper
    removed, is refused by [json.loads], [extract_fields] returns an
    [ExtractedFields] whose every field is empty or absent; it does not
    raise, and the route answers with that record. *)
Theorem extract_fields_malformed_reply
    (db : DocumentStore) (document_id : string) (doc : Document)
    (reply msg : string) :
  Db.get_document db document_id = Some doc ->
  generate (ExtractionService.prompt (doc_text doc)) = Ok reply ->
  loads (strip_fence (strip reply)) = Raise (JSONDecodeError msg) ->
  exists fields,
    ExtractionService.extract_fields (doc_text doc) = Ok fields
    /\ all_absent fields
    /\ snd (Main.extract_fields db document_id) = Response fields.
Proof.
  intros G P L. exists ExtractedFields_default.
  assert (E : ExtractionService.extract_fields (doc_text doc)
              = Ok ExtractedFields_default).
  { unfold ExtractionService.extract_fields.
    rewrite P. cbn [bind]. now rewrite L. }
  split; [exact E|]. split; [now repeat split|].
  unfold Main.extract_fields. rewrite G. now rewrite E.
Qed.

(** C3.  When the reply of the provider, its fenced-code-block wrapper
    removed, is refused by [json.loads], the audit of a stored document
    returns exactly one finding: its severity is [low], its clause type
    [other], its document the audited one, and its recommendation advises a
    manual review.  The route answers with that list. *)
Theorem audit_document_malformed_reply
    (db : DocumentStore) (document_id : string) (doc : Document)
    (reply msg : string) :
  Db.get_document db document_id = Some doc ->
  generate (AuditService.prompt doc) = Ok reply ->
  loads (strip_fence (strip reply)) = Raise (JSONDecodeError msg) ->
  exists finding,
    AuditService.audit_document db document_id = [finding]
    /\ severity finding = "low"
    /\ clause_type finding = "other"
    /\ finding_document_id finding = document_id
    /\ recommendation finding = Some "Manual review recommended"
    /\ snd (Main.audit_document db document_id) = Response [finding].
Proof.
  intros G P L. exists (AuditService.incomplete document_id).
  assert (E : forall db', Db.get_document db' document_id = Some doc ->
              AuditService.audit_document db' document_id
              = [AuditService.incomplete document_id]).
  { intros db' G'. unfold AuditService.audit_document.
    rewrite G', P. cbn [bind]. now rewrite L. }
  split; [now apply E|]. repeat split.
  unfold Main.audit_document.
  assert (X : Db.document_exists db document_id = true)
    by (apply document_exists_get; now exists doc).
  rewrite X. cbn [negb snd]. f_equal. apply E.
  now rewrite get_document_increment.
Qed.




End StructuredServices.

(** A fenced reply that is not JSON, on the sample store. *)
Lemma extract_fields_malformed_reply_witness :
  Db.get_document Sample.store Sample.lease_id = Some Sample.lease_doc
  /\ @generate (Sample.replying Sample.fenced_apology)
       (@ExtractionService.prompt (doc_text Sample.lease_doc))
     = Ok Sample.fenced_apology
  /\ @loads Sample.decoder
       (Reply.strip_fence (PyStr.strip Sample.fenced_apology))
     = Raise (JSONDecodeError "Expecting value")
  /\ exists fields,
       @ExtractionService.extract_fields
         (Sample.replying Sample.fenced_apology) Sample.decoder
         Sample.pydantic Sample.runtime (doc_text Sample.lease_doc)
       = Ok fields
       /\ all_absent fields
       /\ snd (@Main.extract_fields
                 (Sample.replying Sample.fenced_apology) Sample.decoder
                 Sample.pydantic Sample.runtime Sample.store Sample.lease_id)
          = Response fields.
Proof.
  split; [reflexivity|]. split; [reflexivity|]. split; [reflexivity|].
  apply (@extract_fields_malformed_reply
           (Sample.replying Sample.fenced_apology) Sample.decoder
           Sample.pydantic Sample.runtime Sample.store Sample.lease_id
           Sample.lease_doc Sample.fenced_apology "Expecting value");
    reflexivity.
Defined.

Lemma audit_document_malformed_reply_witness :
  Db.get_document Sample.store Sample.lease_id = Some Sample.lease_doc
  /\ @generate (Sample.replying Sample.fenced_apology)
       (AuditService.prompt Sample.lease_doc)
     = Ok Sample.fenced_apology
  /\ @loads Sample.decoder
       (Reply.strip_fence (PyStr.strip Sample.fenced_apology))
     = Raise (JSONDecodeError "Expecting value")
  /\ exists finding,
       @AuditService.audit_document
         (Sample.replying Sample.fenced_apology) Sample.decoder
         Sample.pydantic Sample.runtime Sample.store Sample.lease_id
       = [finding]
       /\ severity finding = "low"
       /\ clause_type finding = "other"
       /\ finding_document_id finding = Sample.lease_id
       /\ recommendation finding = Some "Manual review recommended"
       /\ snd (@Main.audit_document
                 (Sample.replying Sample.fenced_apology) Sample.decoder
                 Sample.pydantic Sample.runtime Sample.store Sample.lease_id)
          = Response [finding].
Proof.
  split; [reflexivity|]. split; [reflexivity|]. split; [reflexivity|].
  apply (@audit_document_malformed_reply
           (Sample.replying Sample.fenced_apology) Sample.decoder
           Sample.pydantic Sample.runtime Sample.store Sample.lease_id
           Sample.lease_doc Sample.fenced_apology "Expecting value");
    reflexivity.
Defined.



(* ===================================================================== *)
(** * Questions over an empty document set *)
(* ===================================================================== *)

Section QuestionAnswering.
Import PyStr RAGService.
Context `{Provider}.

Lemma get_all_documents_nil (db : DocumentStore) :
  Db.get_all_documents db = [] <-> documents db = [].
Proof.
  unfold Db.get_all_documents, dict_values.
  destruct (documents db); cbn; split; congruence.
Qed.

Lemma select_unknown (db : DocumentStore) (ids : list string) :
  existsb (Db.document_exists db) ids = false ->
  flat_map
    (fun doc_id =>
       if Db.document_exists db doc_id
       then match Db.get_document db doc_id with
            | Some doc => [doc]
            | None => []
            end
       else []) ids = [].
Proof.
  induction ids as [|i ids IH]; [reflexivity|].
  cbn [existsb flat_map]. intros E.
  apply orb_false_iff in E as [-> E]. now apply IH.
Qed.

(** A selection that names identifiers, none of them stored, resolves to
    nothing. *)
Lemma select_unknown_ids (db : DocumentStore) (id : string)
    (ids : list string) :
  existsb (Db.document_exists db) (id :: ids) = false ->
  select db (Some (id :: ids)) = [].
Proof. intros E. exact (select_unknown db (id :: ids) E). Qed.

Lemma exists_in_empty (db : DocumentStore) (ids : list string) :
  documents db = [] -> existsb (Db.document_exists db) ids = false.
Proof.
  intros E. induction ids as [|i ids IH]; [reflexivity|].
  cbn [existsb]. rewrite IH.
  unfold Db.document_exists, dict_contains. now rewrite E.
Qed.

(** On a store without documents every selection resolves to nothing. *)
Lemma select_empty_store (db : DocumentStore)
    (document_ids : option (list string)) :
  documents db = [] -> select db document_ids = [].
Proof.
  intros E. destruct document_ids as [[|i ids]|]; cbn [select];
    try (now apply get_all_documents_nil).
  exact (select_unknown db (i :: ids) (exists_in_empty db (i :: ids) E)).
Qed.

(** A selection resolves to nothing exactly when the store is empty or the
    selection names identifiers of which none is stored. *)
Lemma select_nil_iff (db : DocumentStore)
    (document_ids : option (list string)) :
  select db document_ids = [] <->
  documents db = []
  \/ exists id ids,
       document_ids = Some (id :: ids)
       /\ existsb (Db.document_exists db) (id :: ids) = false.
Proof.
  split.
  - destruct document_ids as [[|i ids]|]; cbn [select]; intros E;
      try (left; now apply get_all_documents_nil).
    right. exists i, ids. split; [reflexivity|].
    induction (i :: ids) as [|j l IH]; [reflexivity|].
    cbn [flat_map existsb] in *.
    destruct (Db.document_exists db j) eqn:X.
    + apply document_exists_get in X as [d G]. rewrite G in E.
      discriminate.
    + now apply IH.
  - intros [E|(i & ids & -> & E)];
      [now apply select_empty_store | now apply select_unknown_ids].
Qed.

(** C7.  For every question, [answer] called with a list that names
    identifiers, none of them in the store, returns the fixed answer, with
    no citation and no confidence: the very result it returns, for any
    selection, on a store that holds no document.  The route answers with
    that result, not with an error status. *)
Theorem answer_question_unknown_ids
    (db empty : DocumentStore) (question id : string) (ids : list string)
    (any : option (list string)) :
  existsb (Db.document_exists db) (id :: ids) = false ->
  documents empty = [] ->
  answer_question db question (Some (id :: ids))
    = mkAskResponse "No documents found. Please upload documents first."
                    [] None
  /\ answer_question db question (Some (id :: ids))
     = answer_question empty question any
  /\ (PyStr.truthy question = true ->
      snd (Main.ask_question db question (Some (id :: ids)))
      = Response
          (mkAskResponse "No documents found. Please upload documents first."
                         [] None)).
Proof.
  intros U E.
  assert (A : forall db', documents db' = documents db ->
              answer_question db' question (Some (id :: ids))
              = mkAskResponse no_documents [] None).
  { intros db' D. unfold answer_question.
    rewrite select_unknown_ids; [reflexivity|].
    unfold Db.document_exists in *. now rewrite D. }
  split; [now apply A|]. split.
  - rewrite A by reflexivity. unfold answer_question.
    now rewrite (select_empty_store empty any E).
  - intros Q. unfold Main.ask_question. rewrite Q. cbn [negb snd].
    f_equal. apply A. unfold Db.increment_metric.
    now destruct (dict_contains _ _).
Qed.

(** C9.  When the streaming path resolves no document, the generator
    yields one fragment, the fixed message, and ends; the transport then
    emits that fragment as one event and one closing [data: [DONE]] event,
    and nothing else.  The route does so for every query string that
    selects those identifiers. *)
Theorem answer_question_stream_no_documents
    (db : DocumentStore) (question : string)
    (document_ids : option (list string)) :
  select db document_ids = [] ->
  answer_question_stream db question document_ids
    = ["No documents found. Please upload documents first."]
  /\ Main.event_generator db question document_ids
     = ["data: No documents found. Please upload documents first."
          ++ nl ++ nl;
        "data: [DONE]" ++ nl ++ nl]
  /\ forall query : option string,
       Main.doc_id_list query = document_ids ->
       PyStr.truthy question = true ->
       Main.ask_question_stream db question query
       = Response
           ["data: No documents found. Please upload documents first."
              ++ nl ++ nl;
            "data: [DONE]" ++ nl ++ nl].
Proof.
  intros S.
  assert (A : answer_question_stream db question document_ids
              = [no_documents])
    by (unfold answer_question_stream; now rewrite S).
  assert (B : Main.event_generator db question document_ids
              = ["data: " ++ no_documents ++ nl ++ nl;
                 "data: [DONE]" ++ nl ++ nl])
    by (unfold Main.event_generator; now rewrite A).
  split; [exact A|]. split; [exact B|].
  intros query L Q. unfold Main.ask_question_stream.
  rewrite Q, L. cbn [negb]. now rewrite B.
Qed.


End QuestionAnswering.

(** Two identifiers the sample store does not hold. *)
Lemma answer_question_unknown_ids_witness :
  existsb (Db.document_exists Sample.store) ["missing"; "gone"] = false
  /\ documents Db.init = []
  /\ @RAGService.answer_question (Sample.replying "It is a lease.")
       Sample.store "Who signs?" (Some ["missing"; "gone"])
     = mkAskResponse "No documents found. Please upload documents first."
                     [] None
  /\ @RAGService.answer_question (Sample.replying "It is a lease.")
       Sample.store "Who signs?" (Some ["missing"; "gone"])
     = @RAGService.answer_question (Sample.replying "It is a lease.")
         Db.init "Who signs?" None
  /\ (PyStr.truthy "Who signs?" = true ->
      snd (@Main.ask_question (Sample.replying "It is a lease.")
             Sample.store "Who signs?" (Some ["missing"; "gone"]))
      = Response
          (mkAskResponse "No documents found. Please upload documents first."
                         [] None)).
Proof.
  split; [reflexivity|]. split; [reflexivity|].
  apply (@answer_question_unknown_ids (Sample.replying "It is a lease.")
           Sample.store Db.init "Who signs?" "missing" ["gone"] None);
    reflexivity.
Defined.

(** The stream for two unknown identifiers, given as one query string. *)
Lemma answer_question_stream_no_documents_witness :
  RAGService.select Sample.store (Some ["missing"; "gone"]) = []
  /\ @RAGService.answer_question_stream (Sample.replying "It is a lease.")
       Sample.store "Who signs?" (Some ["missing"; "gone"])
     = ["No documents found. Please upload documents first."]
  /\ @Main.ask_question_stream (Sample.replying "It is a lease.")
       Sample.store "Who signs?" (Some "missing,gone")
     = Response
         ["data: No documents found. Please upload documents first."
            ++ PyStr.nl ++ PyStr.nl;
          "data: [DONE]" ++ PyStr.nl ++ PyStr.nl].
Proof.
  split; [reflexivity|].
  destruct (@answer_question_stream_no_documents
              (Sample.replying "It is a lease.") Sample.store "Who signs?"
              (Some ["missing"; "gone"]) eq_refl) as (A & _ & R).
  split; [exact A|].
  exact (R (Some "missing,gone") eq_refl eq_refl).
Defined.

(* ===================================================================== *)
(** * Ingestion of a batch *)
(* ===================================================================== *)

Section Ingestion.
Import PyStr Batch.
Context `{Runtime}.

Lemma dict_get_set (V : Type) (d : dict V) (k : string) (v : V) :
  dict_get (dict_set d k v) k = Some v.
Proof.
  induction d as [|[k' v'] d IH]; cbn.
  - now rewrite String.eqb_refl.
  - destruct (String.eqb k' k) eqn:E; cbn; rewrite ?E, ?String.eqb_refl;
      [reflexivity | exact IH].
Qed.

Lemma annotate_pages (pages : list (result string)) (n : nat) (text : string) :
  if forallb page_ok pages
  then exists t, PDFService.annotate n pages text = Ok t
  else exists e, PDFService.annotate n pages text = Raise e.
Proof.
  revert n text; induction pages as [|[t|e] pages IH]; intros n text;
    cbn [forallb page_ok PDFService.annotate bind andb].
  - now exists text.
  - apply IH.
  - now exists e.
Qed.

(** Reading back the file that was just saved succeeds exactly when the
    reader gives the text of every page. *)
Lemma extract_saved (fs : filesystem) (path : string) (content : list Z) :
  if match PdfReader content with
     | Ok pages => forallb page_ok pages
     | Raise _ => false
     end
  then exists r,
         PDFService.extract_text_from_pdf (dict_set fs path content) path
         = Ok r
  else exists e,
         PDFService.extract_text_from_pdf (dict_set fs path content) path
         = Raise e.
Proof.
  unfold PDFService.extract_text_from_pdf, PDFService.open_rb.
  rewrite dict_get_set. cbn [bind].
  destruct (PdfReader content) as [pages|e]; cbn [bind try_except];
    [|eexists; reflexivity].
  pose proof (annotate_pages pages 0 EmptyString) as A.
  destruct (forallb page_ok pages); destruct A as [x ->];
    cbn [bind try_except]; eexists; reflexivity.
Qed.

(** One turn of the loop: a processed file adds one identifier and counts
    for one; any other file adds one message. *)
Lemma ingest_file_step (st : Main.ingest_state) (file : UploadFile) :
  let st' := Main.ingest_file st file in
  if processed file
  then Main.in_processed_count st' = Main.in_processed_count st + 1
       /\ (exists id,
             Main.in_document_ids st'
             = (Main.in_document_ids st ++ [id])%list)
       /\ Main.in_errors st' = Main.in_errors st
  else Main.in_processed_count st' = Main.in_processed_count st
       /\ Main.in_document_ids st' = Main.in_document_ids st
       /\ exists msg,
            Main.in_errors st' = (Main.in_errors st ++ [msg])%list.
Proof.
  unfold processed, Main.ingest_file.
  destruct (endswith ".pdf" (filename file)); cbn [negb andb];
    [|cbn; eauto].
  destruct (read file) as [content|e]; [|cbn; eauto].
  unfold PDFService.save_uploaded_file.
  destruct (write_fault _) as [e|]; [cbn; eauto|].
  pose proof (extract_saved (Main.in_fs st)
                (PDFService.path_join "uploads" (filename file)) content) as X.
  destruct (match PdfReader content with
            | Ok pages => forallb page_ok pages
            | Raise _ => false
            end); destruct X as [x ->]; [destruct x|]; cbn; eauto.
Qed.



End Ingestion.


(* ===================================================================== *)
(** * The document store *)
(* ===================================================================== *)

Section DocumentStoreFacts.
Import Shape.
Context `{Runtime}.

Lemma dict_get_set_other (V : Type) (d : dict V) (k k' : string) (v : V) :
  k <> k' -> dict_get (dict_set d k v) k' = dict_get d k'.
Proof.
  intros N. induction d as [|[k0 v0] d IH]; cbn.
  - now apply String.eqb_neq in N as ->.
  - destruct (String.eqb_spec k0 k) as [->|N0]; cbn.
    + apply String.eqb_neq in N. now rewrite N.
    + now rewrite IH.
Qed.

Lemma dict_set_length (V : Type) (d : dict V) (k : string) (v : V) :
  List.length (dict_set d k v) =
  if dict_contains d k then List.length d else S (List.length d).
Proof.
  unfold dict_contains. induction d as [|[k0 v0] d IH]; [reflexivity|].
  cbn [dict_set dict_get]. destruct (String.eqb k0 k); [reflexivity|].
  cbn [List.length]. rewrite IH. now destruct (dict_get d k).
Qed.

(** X1.  After [store_document], [get_document] on the stored identifier
    returns the new entry, with the filename and the text given and the
    page count of the metadata (0 without one), whatever stood there
    before; on every other identifier it returns what it returned before. *)
Theorem store_document_get_document
    (db : DocumentStore) (id filename text : string)
    (metadata : option (dict nat)) (other : string) :
  (exists d,
     Db.get_document (Db.store_document db id filename text metadata) id
     = Some d
     /\ doc_id d = id /\ doc_filename d = filename /\ doc_text d = text
     /\ doc_page_count d
        = match metadata with
          | Some m =>
              match dict_get m "page_count" with Some n => n | None => 0 end
          | None => 0
          end)
  /\ (other <> id ->
      Db.get_document (Db.store_document db id filename text metadata) other
      = Db.get_document db other).
Proof.
  unfold Db.get_document, Db.store_document. cbn [documents]. split.
  - rewrite dict_get_set. eexists. split; [reflexivity|].
    cbn. repeat split. now destruct metadata.
  - intros N. apply dict_get_set_other. congruence.
Qed.

(** X2.  Storing under an identifier that is present replaces the entry
    where it stands: the identifiers and their order stay, and so does the
    number of documents.  A new identifier goes to the end.  The ingest
    counter grows by one in both cases. *)
Theorem store_document_overwrites
    (db : DocumentStore) (id filename text : string)
    (metadata : option (dict nat)) (n : nat) :
  dict_get (metrics db) "total_ingests" = Some n ->
  let db' := Db.store_document db id filename text metadata in
  dict_keys (documents db')
  = (if Db.document_exists db id then dict_keys (documents db)
     else (dict_keys (documents db) ++ [id])%list)
  /\ List.length (Db.get_all_documents db')
     = (if Db.document_exists db id
        then List.length (Db.get_all_documents db)
        else S (List.length (Db.get_all_documents db)))
  /\ counter db' "total_ingests" = n + 1.
Proof.
  intros M db'. subst db'. unfold Db.store_document, Db.document_exists,
    Db.get_all_documents, dict_values, counter. cbn [documents metrics].
  split; [apply dict_set_keys|]. split.
  - rewrite !length_map. apply dict_set_length.
  - unfold Db.bump. rewrite M. now rewrite dict_get_set.
Qed.

(** X3.  [increment_metric] on a name that is no counter changes nothing;
    on a counter it adds one to that counter and leaves every other
    counter and every document as they were. *)
Theorem increment_metric_effect
    (db : DocumentStore) (name other : string) :
  (dict_get (metrics db) name = None -> Db.increment_metric db name = db)
  /\ (forall n, dict_get (metrics db) name = Some n ->
        dict_get (metrics (Db.increment_metric db name)) name = Some (n + 1))
  /\ (other <> name ->
      dict_get (metrics (Db.increment_metric db name)) other
      = dict_get (metrics db) other)
  /\ documents (Db.increment_metric db name) = documents db.
Proof.
  unfold Db.increment_metric, dict_contains, Db.bump.
  destruct (dict_get (metrics db) name) as [n|] eqn:M; cbn [metrics documents].
  - split; [discriminate|]. split.
    + intros k [= <-]. apply dict_get_set.
    + split; [|reflexivity]. intros N. apply dict_get_set_other. congruence.
  - repeat split; try reflexivity. discriminate.
Qed.

Lemma bump_keys (m : dict nat) (name : string) :
  dict_keys (Db.bump m name) = dict_keys m.
Proof.
  unfold Db.bump. destruct (dict_get m name) as [n|] eqn:G; [|reflexivity].
  rewrite dict_set_keys. unfold dict_contains. now rewrite G.
Qed.

Lemma bump_monotone (m : dict nat) (name key : string) (n : nat) :
  dict_get m key = Some n ->
  exists n', dict_get (Db.bump m name) key = Some n' /\ n <= n'.
Proof.
  intros G. unfold Db.bump. destruct (dict_get m name) as [k|] eqn:M.
  - destruct (String.eqb_spec name key) as [->|N].
    + rewrite dict_get_set. exists (k + 1). split; [reflexivity|].
      assert (k = n) by congruence. lia.
    + rewrite dict_get_set_other by exact N. now exists n.
  - now exists n.
Qed.

(** X4.  Every store the methods build keeps its shape: the identifiers
    differ and each entry stands under its own, the counters are the four
    it started with, and the ingest counter is at least the number of
    documents (re-ingesting a document counts again and adds none). *)
Theorem reachable_store_shape (db : DocumentStore) :
  Store.reachable db ->
  Store.consistent db = true
  /\ dict_keys (metrics db) = counter_names
  /\ exists n,
       dict_get (metrics db) "total_ingests" = Some n
       /\ List.length (documents db) <= n.
Proof.
  intros R. split; [now apply reachable_consistent|].
  induction R as [|db id filename text metadata _ [K (n & G & L)]
                  |db name _ [K (n & G & L)]].
  - split; [reflexivity|]. exists 0. split; [reflexivity | cbn; lia].
  - unfold Db.store_document. cbn [metrics documents].
    split; [now rewrite bump_keys|].
    exists (n + 1). split.
    + unfold Db.bump. rewrite G. apply dict_get_set.
    + rewrite dict_set_length. destruct (dict_contains _ _); lia.
  - unfold Db.increment_metric. destruct (dict_contains _ _);
      cbn [metrics documents]; [|split; [exact K | now exists n]].
    split; [now rewrite bump_keys|].
    destruct (bump_monotone (metrics db) name "total_ingests" n G)
      as (n' & G' & L').
    exists n'. split; [exact G' | lia].
Qed.

End DocumentStoreFacts.

Lemma store_document_overwrites_witness :
  dict_get (metrics Sample.store) "total_ingests" = Some 1
  /\ dict_keys
       (documents
          (@Db.store_document Sample.runtime Sample.store Sample.lease_id
             "copy.pdf" "Another text." None))
     = dict_keys (documents Sample.store)
  /\ Shape.counter
       (@Db.store_document Sample.runtime Sample.store Sample.lease_id
          "copy.pdf" "Another text." None) "total_ingests" = 2.
Proof.
  split; [reflexivity|].
  destruct (@store_document_overwrites Sample.runtime Sample.store
              Sample.lease_id "copy.pdf" "Another text." None 1 eq_refl)
    as (K & _ & C).
  split; [exact K | exact C].
Defined.

Lemma reachable_store_shape_witness :
  Store.consistent
    (@Db.increment_metric
       (@Db.store_document Sample.runtime Db.init "id-1" "a.pdf" "text"
          (Some [("page_count", 3)]))
       "total_audits") = true
  /\ dict_keys
       (metrics
          (@Db.increment_metric
             (@Db.store_document Sample.runtime Db.init "id-1" "a.pdf" "text"
                (Some [("page_count", 3)]))
             "total_audits")) = Shape.counter_names.
Proof.
  destruct (@reachable_store_shape Sample.runtime _
              (@Store.reach_increment Sample.runtime _ "total_audits"
                 (@Store.reach_store Sample.runtime Db.init "id-1" "a.pdf"
                    "text" (Some [("page_count", 3)])
                    (@Store.reach_init Sample.runtime))))
    as (C & K & _).
  split; [exact C | exact K].
Defined.

(* ===================================================================== *)
(** * Files and identifiers *)
(* ===================================================================== *)

Section PdfServiceFacts.
Import PyStr Shape.
Context `{Runtime}.
Local Open Scope Z_scope.

Lemma hex_digit_lower (n : Z) :
  0 <= n < 16 -> is_lower_hex (MD5.hex_digit n) = true.
Proof.
  intros B. rewrite <- (Z2Nat.id n) by lia.
  assert (K : (Z.to_nat n < 16)%nat) by lia.
  clear B. revert K. generalize (Z.to_nat n). intros k K.
  do 16 (destruct k as [|k]; [reflexivity|]). lia.
Qed.

Lemma hex_lower (bs : list Z) :
  Forall (fun b => 0 <= b < 256) bs ->
  String.length (MD5.hex bs) = (2 * List.length bs)%nat
  /\ all is_lower_hex (MD5.hex bs) = true.
Proof.
  induction 1 as [|b bs B _ [L A]]; [now split|].
  cbn [MD5.hex String.length List.length all]. split; [lia|].
  rewrite A, andb_true_r. apply andb_true_iff. split; apply hex_digit_lower.
  - rewrite Z.shiftr_div_pow2 by lia. change (2 ^ 4) with 16.
    split; [apply Z.div_pos; lia | apply Z.div_lt_upper_bound; lia].
  - change 15 with (Z.ones 4). rewrite Z.land_ones by lia.
    change (2 ^ 4) with 16. apply Z.mod_pos_bound. lia.
Qed.

Lemma word_bytes_range (w : Z) :
  List.length (MD5.word_bytes w) = 4%nat
  /\ Forall (fun b => 0 <= b < 256) (MD5.word_bytes w).
Proof.
  unfold MD5.word_bytes. split; [reflexivity|].
  apply Forall_map, Forall_forall. intros k _.
  change 255 with (Z.ones 8). rewrite Z.land_ones by lia.
  change (2 ^ 8) with 256. apply Z.mod_pos_bound. lia.
Qed.

(** X5.  The identifier of a document is always 32 characters long, each a
    digit or a letter from [a] to [f], whatever the filename and the
    text. *)
Theorem generate_document_id_shape (filename content : string) :
  String.length (PDFService.generate_document_id filename content) = 32%nat
  /\ all is_lower_hex (PDFService.generate_document_id filename content)
     = true.
Proof.
  unfold PDFService.generate_document_id, MD5.hexdigest, MD5.digest.
  set (st := MD5.blocks _ _ _).
  destruct (word_bytes_range (MD5.sa st)) as [La Fa].
  destruct (word_bytes_range (MD5.sb st)) as [Lb Fb].
  destruct (word_bytes_range (MD5.sc st)) as [Lc Fc].
  destruct (word_bytes_range (MD5.sd st)) as [Ld Fd].
  match goal with
  | |- String.length (MD5.hex ?bs) = _ /\ _ =>
      destruct (hex_lower bs) as [L A]
  end.
  { repeat (apply Forall_app; split); assumption. }
  split; [|exact A]. rewrite L, !length_app, La, Lb, Lc, Ld. reflexivity.
Qed.

Local Close Scope Z_scope.

(** X6.  [extract_text_from_pdf] returns a text and a page count, or
    raises an [Exception] whose text is [Error extracting text from PDF: ]
    followed by the text of the cause: a file that is not there, a reader
    that refuses the file, a page whose text cannot be extracted. *)
Theorem extract_text_from_pdf_failure
    (fs : filesystem) (pdf_path : string) :
  (exists text page_count,
     PDFService.extract_text_from_pdf fs pdf_path = Ok (text, page_count))
  \/ (exists cause,
        PDFService.extract_text_from_pdf fs pdf_path
        = Raise (Exception ("Error extracting text from PDF: " ++ cause))).
Proof.
  unfold PDFService.extract_text_from_pdf.
  destruct (PDFService.open_rb fs pdf_path) as [file|e]; cbn [bind];
    [|right; now exists (exn_str e)].
  destruct (PdfReader file) as [pages|e]; cbn [bind];
    [|right; now exists (exn_str e)].
  destruct (PDFService.annotate 0 pages EmptyString) as [text|e];
    cbn [bind try_except];
    [left; eauto | right; now exists (exn_str e)].
Qed.


End PdfServiceFacts.


(** X8, on the lease: a PDF with a page is cited at page 1. *)
Lemma first_page_of_annotated_witness :
  ["Lease between A and B."; "Signed by A."] <> []
  /\ RAGService.first_page
       (RAGService.findall_pages
          (PageText.annotated ["Lease between A and B."; "Signed by A."]))
     = Some 1.
Proof.
  split; [discriminate|].
  apply (first_page_of_annotated ["Lease between A and B."; "Signed by A."]).
  discriminate.
Defined.

(* ===================================================================== *)
(** * Selection, context and citations *)
(* ===================================================================== *)

Section RetrievalFacts.
Import PyStr RAGService Marker Shape.
Context `{Provider}.

Lemma consistent_get_id (db : DocumentStore) (id : string) (d : Document) :
  Store.consistent db = true -> Db.get_document db id = Some d ->
  doc_id d = id.
Proof.
  unfold Store.consistent. intros C G.
  apply andb_true_iff in C as [_ A].
  apply dict_get_In in G.
  apply (proj1 (forallb_forall _ _) A) in G. cbn in G.
  now apply String.eqb_eq in G.
Qed.

(** X9.  The documents selected by a list of identifiers are those of the
    identifiers that are stored, in the order of the list, an identifier
    named twice selected twice; the unknown ones are dropped. *)
Theorem select_follows_the_list
    (db : DocumentStore) (id : string) (ids : list string) :
  Store.consistent db = true ->
  map doc_id (select db (Some (id :: ids)))
  = filter (Db.document_exists db) (id :: ids).
Proof.
  intros C. unfold select.
  induction (id :: ids) as [|i l IH]; [reflexivity|].
  cbn [flat_map filter]. rewrite map_app, IH.
  destruct (Db.document_exists db i) eqn:X; [|reflexivity].
  apply document_exists_get in X as [d G]. rewrite G. cbn.
  now rewrite (consistent_get_id db i d C G).
Qed.

Lemma context_from (docs : list Document) (context : string) :
  fold_left
    (fun context doc =>
       context ++ nl ++ nl ++ "[DOCUMENT: " ++ doc_id doc ++ "]" ++ nl
               ++ take 5000 (doc_text doc) ++ nl)
    docs context
  = context ++ context_of docs.
Proof.
  unfold context_of. revert context.
  induction docs as [|d docs IH]; intros context; cbn [fold_left].
  - now rewrite append_empty_r.
  - rewrite IH. rewrite (IH (EmptyString ++ _)). cbn [append].
    now rewrite append_assoc.
Qed.

Lemma context_of_cons (d : Document) (docs : list Document) :
  context_of (d :: docs)
  = (nl ++ nl ++ "[DOCUMENT: " ++ doc_id d ++ "]" ++ nl
        ++ take 5000 (doc_text d) ++ nl) ++ context_of docs.
Proof.
  unfold context_of at 1. cbn [fold_left]. now rewrite context_from.
Qed.

(** X10.  The context names every selected document by a
    [[DOCUMENT: id]] line, and it is never longer than the identifiers,
    5000 characters of text and 16 of frame for each document: the text
    of a long document is cut. *)
Theorem context_of_documents (docs : list Document) :
  (forall d, In d docs ->
     occurs ("[DOCUMENT: " ++ doc_id d ++ "]") (context_of docs))
  /\ String.length (context_of docs) <= context_budget docs.
Proof.
  induction docs as [|x docs [IHo IHb]].
  - split; [intros d [] | cbn; lia].
  - rewrite context_of_cons. split.
    + intros d [->|I].
      * exists (nl ++ nl),
          (nl ++ take 5000 (doc_text d) ++ nl ++ context_of docs).
        now rewrite !append_assoc.
      * destruct (IHo d I) as (a & b & E). rewrite E.
        exists ((nl ++ nl ++ "[DOCUMENT: " ++ doc_id x ++ "]" ++ nl
                    ++ take 5000 (doc_text x) ++ nl) ++ a), b.
        now rewrite !append_assoc.
    + cbn [context_budget]. rewrite !length_append, length_take.
      change (String.length nl) with 1.
      change (String.length "[DOCUMENT: ") with 11.
      change (String.length "]") with 1.
      pose proof (Nat.le_min_l 5000 (String.length (doc_text x))). lia.
Qed.

Lemma cite_of (answer : string) (d : Document) (c : Citation) :
  In c (cite answer d) ->
  cit_document_id c = doc_id d /\ char_start c = None /\ char_end c = None.
Proof.
  unfold cite. destruct (_ || _); [|contradiction].
  intros [<-|[]]. now repeat split.
Qed.

Lemma cite_length (answer : string) (d : Document) :
  List.length (cite answer d) <= 1.
Proof. unfold cite. destruct (_ || _); cbn; lia. Qed.

Lemma extract_citations_candidates (answer : string) (docs : list Document) :
  List.length (_extract_citations answer docs) <= List.length docs
  /\ forall c, In c (_extract_citations answer docs) ->
       In (cit_document_id c) (map doc_id docs)
       /\ char_start c = None /\ char_end c = None.
Proof.
  rewrite extract_citations_flat_map.
  induction docs as [|d docs [IHl IHc]]; [split; [cbn; lia | intros c []]|].
  cbn [flat_map map List.length]. rewrite length_app. split.
  - pose proof (cite_length answer d). lia.
  - intros c I. apply in_app_or in I as [I|I].
    + apply cite_of in I as (E & S & T). repeat split; trivial. now left.
    + destruct (IHc c I) as (E & S & T). repeat split; trivial. now right.
Qed.

(** X11.  Whatever the provider answers, the citations of a response name
    selected documents only, there are no more of them than documents
    selected, and none has character offsets. *)
Theorem answer_question_citations
    (db : DocumentStore) (question : string)
    (document_ids : option (list string)) :
  let response := answer_question db question document_ids in
  List.length (citations response)
    <= List.length (select db document_ids)
  /\ forall c, In c (citations response) ->
       In (cit_document_id c) (map doc_id (select db document_ids))
       /\ char_start c = None /\ char_end c = None.
Proof.
  unfold answer_question.
  destruct (select db document_ids) as [|d docs] eqn:S;
    [split; [cbn; lia | intros c []]|].
  destruct (generate _) as [reply|e]; cbn [bind citations];
    [apply extract_citations_candidates|].
  split; [cbn; lia | intros c []].
Qed.



Lemma endswith_append (s p : string) : endswith p (s ++ p) = true.
Proof.
  unfold endswith. rewrite length_append.
  replace (String.length s + String.length p - String.length p)
    with (String.length s) by lia.
  rewrite drop_append, String.eqb_refl, andb_true_r.
  apply Nat.leb_le. lia.
Qed.

Lemma filter_truthy (chunks : list string) :
  Forall (fun f => PyStr.truthy f = true) (filter PyStr.truthy chunks).
Proof.
  apply Forall_forall. intros f I. now apply filter_In in I.
Qed.

(** X13.  The generator of the stream never yields an empty fragment.
    The transport emits one event for each fragment and one more, the
    [data: [DONE]] event, which comes last; every event is a [data:] line
    closed by an empty line. *)
Theorem event_generator_frames
    (db : DocumentStore) (question : string)
    (document_ids : option (list string)) :
  Forall (fun f => PyStr.truthy f = true)
    (answer_question_stream db question document_ids)
  /\ List.length (Main.event_generator db question document_ids)
     = S (List.length (answer_question_stream db question document_ids))
  /\ last (Main.event_generator db question document_ids) EmptyString
     = "data: [DONE]" ++ nl ++ nl
  /\ Forall (fun e => framed e = true)
       (Main.event_generator db question document_ids).
Proof.
  split; [|split; [|split]].
  - unfold answer_question_stream.
    destruct (select db document_ids); [now repeat constructor|].
    destruct (generate_stream _) as [chunks [e|]].
    + apply Forall_app. split; [apply filter_truthy | now repeat constructor].
    + rewrite app_nil_r. apply filter_truthy.
  - unfold Main.event_generator. rewrite length_app, length_map. cbn. lia.
  - unfold Main.event_generator. now rewrite last_last.
  - unfold Main.event_generator. apply Forall_app. split.
    + apply Forall_map, Forall_forall. intros f _. unfold framed.
      apply andb_true_iff. split.
      * apply startswith_iff. now exists (f ++ nl ++ nl).
      * rewrite <- (append_assoc "data: " f (nl ++ nl)).
        apply endswith_append.
    + now repeat constructor.
Qed.

End RetrievalFacts.

Lemma select_follows_the_list_witness :
  Store.consistent Sample.store = true
  /\ map doc_id
       (RAGService.select Sample.store
          (Some ["gone"; Sample.lease_id; Sample.lease_id]))
     = filter (Db.document_exists Sample.store)
         ["gone"; Sample.lease_id; Sample.lease_id].
Proof.
  split; [reflexivity|].
  apply (select_follows_the_list Sample.store "gone"
           [Sample.lease_id; Sample.lease_id]).
  reflexivity.
Defined.

(* ===================================================================== *)
(** * Replies that are JSON *)
(* ===================================================================== *)

Section StructuredReplies.
Import PyStr Reply Shape.
Context `{Provider} `{JsonDecoder} `{Pydantic} `{Runtime}.

(** X14.  The extraction route answers 404 for an unknown document and
    leaves the store as it is.  For a stored one it counts the attempt,
    whether or not it succeeds, and answers with the fields or with status
    500 and a detail that starts [Extraction failed: Extraction error: ]:
    no other failure leaves the service. *)
Theorem extract_fields_route
    (db : DocumentStore) (document_id : string) :
  match Db.get_document db document_id with
  | None =>
      Main.extract_fields db document_id
      = (db, HTTPException 404 "Document not found")
  | Some doc =>
      fst (Main.extract_fields db document_id)
      = Db.increment_metric db "total_extractions"
      /\ ((exists fields,
             snd (Main.extract_fields db document_id) = Response fields)
          \/ (exists cause,
                snd (Main.extract_fields db document_id)
                = HTTPException 500
                    ("Extraction failed: Extraction error: " ++ cause)))
  end.
Proof.
  unfold Main.extract_fields.
  destruct (Db.get_document db document_id) as [doc|]; [|reflexivity].
  unfold ExtractionService.extract_fields.
  destruct (_ <- generate _ ;; _) as [fields|[m|m]]; cbn [fst snd exn_str];
    split; try reflexivity; eauto.
  right. now exists m.
Qed.

Lemma get_blank (m : dict json) (key : string) :
  blank m key = true -> get (JObj m) key JNull = Ok JNull.
Proof.
  unfold blank, get. now destruct (dict_get m key) as [[]|].
Qed.

(** X15.  A reply that decodes to an object without [parties] and
    [signatories], whose other fields are missing or [null], gives the
    same all-absent fields as a reply that is not JSON: a missing member
    and a [null] one are both an absent field. *)
Theorem extract_fields_blank_object
    (document_text reply : string) (m : dict json) :
  generate (ExtractionService.prompt document_text) = Ok reply ->
  loads (strip_fence (strip reply)) = Ok (JObj m) ->
  dict_get m "parties" = None ->
  dict_get m "signatories" = None ->
  forallb (blank m) ("liability_cap" :: text_keys) = true ->
  ExtractionService.extract_fields document_text = Ok ExtractedFields_default.
Proof.
  intros G L P S B. unfold ExtractionService.extract_fields.
  rewrite G. cbn [bind]. rewrite L. cbn [bind].
  cbn [forallb text_keys] in B.
  repeat (apply andb_true_iff in B as [?B B]).
  unfold ExtractionService.build.
  unfold get at 1. rewrite P. cbn [bind iterate mapM].
  rewrite !get_blank by assumption. cbn [bind Json.truthy].
  unfold get at 1. rewrite S. cbn [bind iterate mapM].
  reflexivity.
Qed.

(** X16.  A reply whose [parties] member is [null], which the prompt
    allows for a field that was not found, makes the extraction fail: the
    loop over the parties raises, and the service raises an extraction
    error instead of returning the other fields. *)
Theorem extract_fields_null_parties
    (document_text reply : string) (m : dict json) :
  generate (ExtractionService.prompt document_text) = Ok reply ->
  loads (strip_fence (strip reply)) = Ok (JObj m) ->
  dict_get m "parties" = Some JNull ->
  ExtractionService.extract_fields document_text
  = Raise (Exception ("Extraction error: " ++ not_iterable JNull)).
Proof.
  intros G L P. unfold ExtractionService.extract_fields.
  rewrite G. cbn [bind]. rewrite L. cbn [bind].
  unfold ExtractionService.build. unfold get at 1. rewrite P.
  reflexivity.
Qed.

(** X17.  A reply that is JSON but no object (an array, a string, a
    number) is an extraction error too; only a reply that is not JSON at
    all degrades to the empty fields. *)
Theorem extract_fields_not_an_object
    (document_text reply : string) (v : json) :
  generate (ExtractionService.prompt document_text) = Ok reply ->
  loads (strip_fence (strip reply)) = Ok v ->
  is_object v = false ->
  ExtractionService.extract_fields document_text
  = Raise (Exception ("Extraction error: " ++ attribute_error v "get")).
Proof.
  intros G L O. unfold ExtractionService.extract_fields.
  rewrite G. cbn [bind]. rewrite L. cbn [bind].
  destruct v; try discriminate; reflexivity.
Qed.

Lemma new_AuditFinding_ok (document_id : string) (x : json)
    (f : AuditFinding) :
  AuditService.new_AuditFinding document_id x = Ok f ->
  finding_document_id f = document_id /\ finding_page f = None.
Proof.
  unfold AuditService.new_AuditFinding.
  destruct (get x "severity" _) as [a|]; [|discriminate].
  destruct (get x "clause_type" _) as [b|]; [|discriminate].
  destruct (get x "description" _) as [c|]; [|discriminate].
  destruct (get x "evidence" _) as [d|]; [|discriminate].
  destruct (get x "recommendation" _) as [e|]; [|discriminate].
  cbn [bind].
  destruct (validate_str a), (validate_str b), (validate_str c),
    (validate_str d), (optional_str (Some e)); try discriminate.
  now intros [= <-].
Qed.

Lemma new_AuditFinding_raise (document_id : string) (x : json) (e : exn) :
  AuditService.new_AuditFinding document_id x = Raise e ->
  exists msg, e = Exception msg.
Proof.
  unfold AuditService.new_AuditFinding, get.
  destruct x; cbn [bind]; try (intros [= <-]; eauto).
  destruct (validate_str _), (validate_str _), (validate_str _),
    (validate_str _), (optional_str _); try discriminate;
    intros [= <-]; eauto.
Qed.

Lemma mapM_ok (A B : Type) (f : A -> result B) (l : list A) (r : list B) :
  mapM f l = Ok r ->
  List.length r = List.length l
  /\ forall y, In y r -> exists x, In x l /\ f x = Ok y.
Proof.
  revert r; induction l as [|x l IH]; intros r; cbn [mapM].
  - intros [= <-]. split; [reflexivity | intros y []].
  - destruct (f x) as [y|] eqn:F; [|discriminate]. cbn [bind].
    destruct (mapM f l) as [ys|]; [|discriminate]. cbn [bind].
    intros [= <-]. destruct (IH ys eq_refl) as [L I]. split.
    + cbn. now rewrite L.
    + intros z [<-|Z]; [exists x; split; [now left | exact F]|].
      destruct (I z Z) as (x' & I' & F'). exists x'. split; [now right | exact F'].
Qed.

Lemma mapM_raise (A B : Type) (f : A -> result B) (l : list A) (e : exn) :
  mapM f l = Raise e -> exists x, In x l /\ f x = Raise e.
Proof.
  induction l as [|x l IH]; cbn [mapM]; [discriminate|].
  destruct (f x) as [y|e'] eqn:F; cbn [bind].
  - destruct (mapM f l) as [ys|e'']; cbn [bind]; [discriminate|].
    intros [= ->]. destruct (IH eq_refl) as (x' & I & F').
    exists x'. split; [now right | exact F'].
  - intros [= ->]. exists x. split; [now left | exact F].
Qed.

(** X18.  Every finding an audit returns, on every path, carries the
    identifier the audit was asked for and no page. *)
Theorem audit_document_findings_tagged
    (db : DocumentStore) (document_id : string) :
  Forall (fun f => finding_document_id f = document_id
                   /\ finding_page f = None)
    (AuditService.audit_document db document_id).
Proof.
  unfold AuditService.audit_document.
  destruct (Db.get_document db document_id) as [doc|]; [|constructor].
  destruct (_ <- generate _ ;; _) as [findings|[m|m]] eqn:B;
    [|now repeat constructor..].
  destruct (generate _) as [reply|]; [|discriminate]. cbn [bind] in B.
  destruct (loads _) as [v|]; [|discriminate]. cbn [bind] in B.
  destruct (iterate v) as [items|]; [|discriminate]. cbn [bind] in B.
  apply mapM_ok in B as [_ I]. apply Forall_forall. intros f F.
  destruct (I f F) as (x & _ & E). now apply new_AuditFinding_ok in E.
Qed.

(** X19.  The findings of a decoded reply are all kept or all dropped:
    the audit returns one finding for each element, or, when one element
    is refused, a single finding that reports the error and none of the
    findings built before it. *)
Theorem audit_document_all_or_nothing
    (db : DocumentStore) (document_id : string) (doc : Document)
    (reply : string) (v : json) (items : list json) :
  Db.get_document db document_id = Some doc ->
  generate (AuditService.prompt doc) = Ok reply ->
  loads (strip_fence (strip reply)) = Ok v ->
  iterate v = Ok items ->
  (mapM (AuditService.new_AuditFinding document_id) items
   = Ok (AuditService.audit_document db document_id)
   /\ List.length (AuditService.audit_document db document_id)
      = List.length items)
  \/ (exists x msg,
        In x items
        /\ AuditService.new_AuditFinding document_id x
           = Raise (Exception msg)
        /\ AuditService.audit_document db document_id
           = [AuditService.failed document_id (Exception msg)]).
Proof.
  intros G P L I. unfold AuditService.audit_document.
  rewrite G, P. cbn [bind]. rewrite L. cbn [bind]. rewrite I. cbn [bind].
  destruct (mapM _ items) as [findings|e] eqn:M.
  - left. split; [reflexivity|]. now apply mapM_ok in M as [Len _].
  - right. apply mapM_raise in M as (x & X & E).
    destruct (new_AuditFinding_raise _ _ _ E) as [msg ->].
    exists x, msg. now repeat split.
Qed.

Lemma batch_audit_get (db : DocumentStore) (ids : list string)
    (results : dict (list AuditFinding)) (id : string) :
  dict_get (AuditService.batch_audit db ids results) id
  = if existsb (String.eqb id) ids && Db.document_exists db id
    then Some (AuditService.audit_document db id)
    else dict_get results id.
Proof.
  revert results; induction ids as [|i ids IH]; intros results;
    [reflexivity|].
  cbn [AuditService.batch_audit existsb]. rewrite IH.
  destruct (existsb (String.eqb id) ids && Db.document_exists db id) eqn:E.
  - apply andb_true_iff in E as [-> ->]. now rewrite orb_true_r.
  - destruct (String.eqb_spec id i) as [->|N]; cbn [orb].
    + destruct (Db.document_exists db i) eqn:X.
      * now rewrite dict_get_set.
      * now rewrite andb_false_r.
    + assert (existsb (String.eqb id) ids && Db.document_exists db id
              = false) as -> by exact E.
      destruct (Db.document_exists db i); [|reflexivity].
      apply dict_get_set_other. congruence.
Qed.

(** X20.  [batch_audit] has an entry for an identifier exactly when the
    identifier is in the list and in the store, and the entry is the audit
    of that document; an identifier that is not stored has none. *)
Theorem batch_audit_entries
    (db : DocumentStore) (ids : list string) (id : string) :
  dict_get (AuditService.batch_audit db ids []) id
  = if existsb (String.eqb id) ids && Db.document_exists db id
    then Some (AuditService.audit_document db id)
    else None.
Proof. apply batch_audit_get. Qed.

End StructuredReplies.

Lemma extract_fields_blank_object_witness :
  @generate (Sample.replying Sample.blank_reply)
    (@ExtractionService.prompt "Lease.") = Ok Sample.blank_reply
  /\ @loads Sample.decoder
       (Reply.strip_fence (PyStr.strip Sample.blank_reply))
     = Ok (JObj [("note", JNull); ("term", JNull)])
  /\ dict_get [("note", JNull); ("term", JNull)] "parties" = None
  /\ dict_get [("note", JNull); ("term", JNull)] "signatories" = None
  /\ forallb (Shape.blank [("note", JNull); ("term", JNull)])
       ("liability_cap" :: Shape.text_keys) = true
  /\ @ExtractionService.extract_fields (Sample.replying Sample.blank_reply)
       Sample.decoder Sample.pydantic Sample.runtime "Lease."
     = Ok ExtractedFields_default.
Proof.
  repeat (split; [reflexivity|]).
  apply (@extract_fields_blank_object (Sample.replying Sample.blank_reply)
           Sample.decoder Sample.pydantic Sample.runtime "Lease."
           Sample.blank_reply [("note", JNull); ("term", JNull)]);
    reflexivity.
Defined.

Lemma extract_fields_null_parties_witness :
  @generate (Sample.replying Sample.null_parties_reply)
    (@ExtractionService.prompt "Lease.") = Ok Sample.null_parties_reply
  /\ @loads Sample.decoder
       (Reply.strip_fence (PyStr.strip Sample.null_parties_reply))
     = Ok (JObj [("parties", JNull)])
  /\ dict_get [("parties", JNull)] "parties" = Some JNull
  /\ @ExtractionService.extract_fields
       (Sample.replying Sample.null_parties_reply)
       Sample.decoder Sample.pydantic Sample.runtime "Lease."
     = Raise (Exception
                ("Extraction error: " ++ @not_iterable Sample.runtime JNull)).
Proof.
  repeat (split; [reflexivity|]).
  apply (@extract_fields_null_parties
           (Sample.replying Sample.null_parties_reply)
           Sample.decoder Sample.pydantic Sample.runtime "Lease."
           Sample.null_parties_reply [("parties", JNull)]);
    reflexivity.
Defined.

Lemma extract_fields_not_an_object_witness :
  @generate (Sample.replying "[]") (@ExtractionService.prompt "Lease.")
  = Ok "[]"
  /\ @loads Sample.decoder (Reply.strip_fence (PyStr.strip "[]"))
     = Ok (JArr [])
  /\ Shape.is_object (JArr []) = false
  /\ @ExtractionService.extract_fields (Sample.replying "[]")
       Sample.decoder Sample.pydantic Sample.runtime "Lease."
     = Raise (Exception
                ("Extraction error: "
                   ++ @attribute_error Sample.runtime (JArr []) "get")).
Proof.
  repeat (split; [reflexivity|]).
  apply (@extract_fields_not_an_object (Sample.replying "[]")
           Sample.decoder Sample.pydantic Sample.runtime "Lease." "[]"
           (JArr []));
    reflexivity.
Defined.

(** An array whose second element is no object: the finding of the first
    is dropped with it. *)
Lemma audit_document_all_or_nothing_witness :
  Db.get_document Sample.store Sample.lease_id = Some Sample.lease_doc
  /\ @generate (Sample.replying Sample.mixed_reply)
       (AuditService.prompt Sample.lease_doc) = Ok Sample.mixed_reply
  /\ @loads Sample.decoder
       (Reply.strip_fence (PyStr.strip Sample.mixed_reply))
     = Ok (JArr [JObj []; JInt 3])
  /\ @Reply.iterate Sample.runtime (JArr [JObj []; JInt 3])
     = Ok [JObj []; JInt 3]
  /\ ((@mapM json AuditFinding
         (@AuditService.new_AuditFinding Sample.pydantic Sample.runtime
            Sample.lease_id) [JObj []; JInt 3]
       = Ok (@AuditService.audit_document (Sample.replying Sample.mixed_reply)
               Sample.decoder Sample.pydantic Sample.runtime Sample.store
               Sample.lease_id)
       /\ List.length
            (@AuditService.audit_document
               (Sample.replying Sample.mixed_reply) Sample.decoder
               Sample.pydantic Sample.runtime Sample.store Sample.lease_id)
          = List.length [JObj []; JInt 3])
      \/ (exists x msg,
            In x [JObj []; JInt 3]
            /\ @AuditService.new_AuditFinding Sample.pydantic Sample.runtime
                 Sample.lease_id x = Raise (Exception msg)
            /\ @AuditService.audit_document
                 (Sample.replying Sample.mixed_reply) Sample.decoder
                 Sample.pydantic Sample.runtime Sample.store Sample.lease_id
               = [AuditService.failed Sample.lease_id (Exception msg)])).
Proof.
  repeat (split; [reflexivity|]).
  apply (@audit_document_all_or_nothing (Sample.replying Sample.mixed_reply)
           Sample.decoder Sample.pydantic Sample.runtime Sample.store
           Sample.lease_id Sample.lease_doc Sample.mixed_reply
           (JArr [JObj []; JInt 3]) [JObj []; JInt 3]);
    reflexivity.
Defined.

(* ===================================================================== *)
(** * What ingestion leaves behind *)
(* ===================================================================== *)

Section IngestionFacts.
Import PyStr Batch Shape PageText.
Context `{Runtime}.

Lemma extract_text_annotated (fs : filesystem) (path : string)
    (file : list Z) (texts : list string) :
  PDFService.open_rb fs path = Ok file ->
  PdfReader file = Ok (map Ok texts) ->
  PDFService.extract_text_from_pdf fs path
  = Ok (annotated texts, List.length texts).
Proof.
  intros O R. unfold PDFService.extract_text_from_pdf.
  rewrite O. cbn [bind]. rewrite R. cbn [bind].
  rewrite annotate_blocks. cbn [bind try_except append].
  rewrite length_map. unfold annotated.
  now rewrite (strip_blocks (0 + 1) texts).
Qed.


(** X21.  A file named [.pdf] that is read, saved and whose pages all give
    their text is stored under the digest of its name and its text; the
    entry holds the name, the text with its page markers and the number of
    pages, the file is on disk, and the identifier is added to those the
    call returns. *)
Theorem ingest_file_stores_document
    (st : Main.ingest_state) (file : UploadFile) (content : list Z)
    (texts : list string) :
  endswith ".pdf" (filename file) = true ->
  read file = Ok content ->
  write_fault (PDFService.path_join "uploads" (filename file)) = None ->
  PdfReader content = Ok (map Ok texts) ->
  let id :=
    PDFService.generate_document_id (filename file) (annotated texts) in
  let st' := Main.ingest_file st file in
  (exists d,
     Db.get_document (Main.in_db st') id = Some d
     /\ doc_id d = id /\ doc_filename d = filename file
     /\ doc_text d = annotated texts
     /\ doc_page_count d = List.length texts)
  /\ PDFService.open_rb (Main.in_fs st')
       (PDFService.path_join "uploads" (filename file)) = Ok content
  /\ Main.in_document_ids st' = (Main.in_document_ids st ++ [id])%list
  /\ Main.in_processed_count st' = Main.in_processed_count st + 1
  /\ Main.in_errors st' = Main.in_errors st.
Proof.
  intros E R W P id st'. subst id st'.
  unfold Main.ingest_file. rewrite E. cbn [negb]. rewrite R.
  unfold PDFService.save_uploaded_file. rewrite W.
  rewrite (extract_text_annotated _ _ content texts);
    [|unfold PDFService.open_rb; now rewrite dict_get_set | exact P].
  cbn [Main.in_db Main.in_fs Main.in_document_ids Main.in_processed_count
       Main.in_errors].
  split.
  - unfold Db.get_document, Db.store_document. cbn [documents].
    rewrite dict_get_set. eexists. split; [reflexivity|].
    cbn. now repeat split.
  - split; [|now repeat split].
    unfold PDFService.open_rb. now rewrite dict_get_set.
Qed.


End IngestionFacts.

Section IngestionInvariants.
Import PyStr Batch Shape.
Context `{Provider} `{JsonDecoder} `{Pydantic} `{Runtime}.

(** A turn of the loop leaves the store as it is, or stores one document
    and returns its identifier. *)
Lemma ingest_file_db (st : Main.ingest_state) (file : UploadFile) :
  (Main.in_db (Main.ingest_file st file) = Main.in_db st
   /\ Main.in_document_ids (Main.ingest_file st file)
      = Main.in_document_ids st)
  \/ (exists id name text metadata,
        Main.in_db (Main.ingest_file st file)
        = Db.store_document (Main.in_db st) id name text metadata
        /\ Main.in_document_ids (Main.ingest_file st file)
           = (Main.in_document_ids st ++ [id])%list).
Proof.
  unfold Main.ingest_file.
  destruct (negb _); [now left|].
  destruct (read file) as [content|e]; [|now left].
  destruct (PDFService.save_uploaded_file _ _ _ _) as [[fs path]|e];
    [|now left].
  destruct (PDFService.extract_text_from_pdf fs path) as [[text n]|e];
    [|now left].
  right. now eexists _, _, _, _.
Qed.

Lemma document_exists_store (db : DocumentStore)
    (id name text : string) (metadata : option (dict nat)) (other : string) :
  Db.document_exists (Db.store_document db id name text metadata) other
  = String.eqb id other || Db.document_exists db other.
Proof.
  unfold Db.document_exists, Db.store_document, dict_contains.
  cbn [documents]. destruct (String.eqb_spec id other) as [->|N].
  - now rewrite dict_get_set.
  - now rewrite dict_get_set_other.
Qed.

Lemma consistent_store (db : DocumentStore)
    (id name text : string) (metadata : option (dict nat)) :
  Store.consistent db = true ->
  Store.consistent (Db.store_document db id name text metadata) = true.
Proof.
  intros C. unfold Db.store_document.
  exact (consistent_set db
           (mkDocument id name text
              match metadata with Some m => m | None => [] end
              now_isoformat
              match dict_get match metadata with Some m => m | None => [] end
                             "page_count" with
              | Some n => n
              | None => 0
              end) _ C).
Qed.

Lemma ingest_loop_stored (files : list UploadFile) (st : Main.ingest_state) :
  let st' := fold_left Main.ingest_file files st in
  (Forall (fun id => Db.document_exists (Main.in_db st) id = true)
     (Main.in_document_ids st) ->
   Forall (fun id => Db.document_exists (Main.in_db st') id = true)
     (Main.in_document_ids st'))
  /\ (forall id, Db.document_exists (Main.in_db st) id = true ->
        Db.document_exists (Main.in_db st') id = true)
  /\ (Store.consistent (Main.in_db st) = true ->
      Store.consistent (Main.in_db st') = true).
Proof.
  revert st; induction files as [|file files IH]; intros st;
    cbn [fold_left]; [now repeat split|].
  destruct (IH (Main.ingest_file st file)) as (F & M & C).
  destruct (ingest_file_db st file)
    as [[D I]|(id & name & text & md & D & I)].
  - rewrite D, I in *. now repeat split.
  - rewrite D, I in *. split; [|split].
    + intros A. apply F. apply Forall_app. split.
      * eapply Forall_impl; [|exact A]. cbn. intros x X.
        rewrite document_exists_store, X. apply orb_true_r.
      * repeat constructor. rewrite document_exists_store.
        now rewrite String.eqb_refl.
    + intros x X. apply M. rewrite document_exists_store, X.
      apply orb_true_r.
    + intros K. apply C. now apply consistent_store.
Qed.

(** X23.  After a call of the ingestion route, every identifier it
    returns is in the store, every document that was stored before still
    is, and a store whose entries stood under their own identifiers still
    has them so: failed files never damage the store. *)
Theorem ingest_documents_store
    (db : DocumentStore) (fs : filesystem) (files : list UploadFile) :
  let st := fst (Main.ingest_documents db fs files) in
  Forall (fun id => Db.document_exists (Main.in_db st) id = true)
    (Main.in_document_ids st)
  /\ (forall id, Db.document_exists db id = true ->
        Db.document_exists (Main.in_db st) id = true)
  /\ (Store.consistent db = true -> Store.consistent (Main.in_db st) = true).
Proof.
  unfold Main.ingest_documents. destruct files as [|file files].
  - cbn. now repeat split.
  - destruct (ingest_loop_stored (file :: files) (Main.mkIngest db fs [] 0 []))
      as (F & M & C).
    cbn [Main.in_db Main.in_document_ids] in F, M, C.
    destruct (Nat.eqb _ 0); cbn [fst]; (split; [apply F; constructor|]);
      split; assumption.
Qed.

(** X24.  A file named [.pdf] that is saved but that the reader refuses
    stores no document and stays on disk; its message names the file and
    carries both prefixes, of the route and of the extraction. *)
Theorem ingest_file_keeps_refused_upload
    (st : Main.ingest_state) (file : UploadFile) (content : list Z)
    (e : exn) :
  endswith ".pdf" (filename file) = true ->
  read file = Ok content ->
  write_fault (PDFService.path_join "uploads" (filename file)) = None ->
  PdfReader content = Raise e ->
  let st' := Main.ingest_file st file in
  Main.in_db st' = Main.in_db st
  /\ Main.in_document_ids st' = Main.in_document_ids st
  /\ PDFService.open_rb (Main.in_fs st')
       (PDFService.path_join "uploads" (filename file)) = Ok content
  /\ Main.in_errors st'
     = List.app (Main.in_errors st)
         ["Error processing " ++ filename file
            ++ ": Error extracting text from PDF: " ++ exn_str e].
Proof.
  intros E R W P st'. subst st'.
  unfold Main.ingest_file. rewrite E. cbn [negb]. rewrite R.
  unfold PDFService.save_uploaded_file. rewrite W.
  unfold PDFService.extract_text_from_pdf, PDFService.open_rb.
  rewrite dict_get_set. cbn [bind]. rewrite P.
  cbn [bind try_except Main.errored Main.in_db Main.in_fs
       Main.in_document_ids Main.in_errors exn_str].
  rewrite dict_get_set. now repeat split.
Qed.

Lemma ingest_file_processed (st : Main.ingest_state) (file : UploadFile) :
  processed file = true ->
  exists id name text metadata,
    Main.in_db (Main.ingest_file st file)
    = Db.store_document (Main.in_db st) id name text metadata
    /\ Main.in_document_ids (Main.ingest_file st file)
       = (Main.in_document_ids st ++ [id])%list
    /\ Main.in_processed_count (Main.ingest_file st file)
       = Main.in_processed_count st + 1.
Proof.
  intros P. pose proof (ingest_file_step st file) as S. cbn zeta in S.
  rewrite P in S. destruct S as (C & [id0 I0] & _).
  destruct (ingest_file_db st file)
    as [[D I]|(id & name & text & md & D & I)].
  - rewrite I in I0. apply (f_equal (@List.length string)) in I0.
    rewrite length_app in I0. cbn in I0. lia.
  - exists id, name, text, md. now repeat split.
Qed.

(** X25.  From a fresh store, one file ingested, then one extraction, one
    question and one audit on the document leave every counter at 1 and
    one document, whatever the provider replies. *)
Theorem metrics_after_one_of_each
    (fs : filesystem) (file : UploadFile) (question : string)
    (document_ids : option (list string)) :
  processed file = true ->
  PyStr.truthy question = true ->
  exists id,
    Main.in_document_ids (fst (Main.ingest_documents Db.init fs [file]))
    = [id]
    /\ let db1 := Main.in_db (fst (Main.ingest_documents Db.init fs [file])) in
       let db2 := fst (Main.extract_fields db1 id) in
       let db3 := fst (Main.ask_question db2 question document_ids) in
       let db4 := fst (Main.audit_document db3 id) in
       Main.get_metrics db4
       = [("total_ingests", 1); ("total_extractions", 1);
          ("total_questions", 1); ("total_audits", 1);
          ("total_documents", 1)].
Proof.
  intros P Q.
  destruct (ingest_file_processed (Main.mkIngest Db.init fs [] 0 []) file P)
    as (id & name & text & md & D & I & C).
  cbn [Main.in_db Main.in_document_ids Main.in_processed_count app] in D, I, C.
  exists id. unfold Main.ingest_documents. cbn [fold_left].
  rewrite C. cbn [Nat.add Nat.eqb fst]. split; [exact I|].
  rewrite D. cbn zeta.
  unfold Main.extract_fields, Db.get_document, Db.store_document.
  cbn [documents Db.init dict_set dict_get]. rewrite String.eqb_refl.
  destruct (ExtractionService.extract_fields _); cbn [fst];
    unfold Main.ask_question; rewrite Q; cbn [negb fst];
    unfold Main.audit_document, Db.document_exists, dict_contains;
    cbn [documents Db.increment_metric metrics dict_contains dict_get
         Db.bump dict_set String.eqb Ascii.eqb Bool.eqb];
    cbn; rewrite String.eqb_refl; reflexivity.
Qed.

End IngestionInvariants.

(* ===================================================================== *)
(** * The query string of the stream *)
(* ===================================================================== *)

Section QueryString.
Import PyStr.

Lemma join_comma_cons (c : ascii) (f : string) (fs : list string) :
  join "," (String c f :: fs) = String c (join "," (f :: fs)).
Proof. destruct fs; reflexivity. Qed.

Lemma split_comma_fields (s : string) :
  exists f fs,
    split_comma s = f :: fs
    /\ join "," (f :: fs) = s
    /\ Forall (fun i => contains "," i = false) (f :: fs).
Proof.
  induction s as [|c s (f & fs & E & J & N)].
  - exists EmptyString, []. now repeat constructor.
  - cbn [split_comma]. rewrite E.
    destruct (Ascii.eqb_spec c ","%char) as [->|C].
    + exists EmptyString, (f :: fs). split; [reflexivity|]. split.
      * change (join "," (EmptyString :: f :: fs))
          with ("," ++ join "," (f :: fs)). now rewrite J.
      * constructor; [reflexivity | exact N].
    + exists (String c f), fs. split; [reflexivity|]. split.
      * now rewrite join_comma_cons, J.
      * inversion N as [|? ? Nf Nfs]; subst. constructor; [|exact Nfs].
        cbn [contains startswith]. rewrite Nf.
        apply Ascii.eqb_neq in C. rewrite Ascii.eqb_sym in C.
        now rewrite C.
Qed.

(** X26.  A query string that is not empty selects the identifiers
    between its commas: there is at least one, none holds a comma, none is
    trimmed, and joined by commas they give the string back.  An empty
    query string selects what an absent one does. *)
Theorem doc_id_list_fields (query : option string) :
  match Main.doc_id_list query with
  | Some ids =>
      exists s,
        query = Some s /\ ids <> []
        /\ join "," ids = s
        /\ Forall (fun i => contains "," i = false) ids
  | None => query = None \/ query = Some EmptyString
  end.
Proof.
  destruct query as [[|c s]|]; cbn [Main.doc_id_list]; auto.
  destruct (split_comma_fields (String c s)) as (f & fs & E & J & N).
  rewrite E. exists (String c s). repeat split; trivial. discriminate.
Qed.

End QueryString.

(* ===================================================================== *)
(** * Runs of the properties *)
(* ===================================================================== *)

Lemma ingest_file_stores_document_witness :
  PyStr.endswith ".pdf" "lease.pdf" = true
  /\ @PdfReader Sample.runtime (Sample.pdf Sample.lease)
     = Ok (map Ok ["Lease between A and B."; "Signed by A."])
  /\ (exists d,
        Db.get_document
          (Main.in_db
             (@Main.ingest_file Sample.runtime
                (Main.mkIngest Db.init [] [] 0 [])
                (Sample.upload "lease.pdf" (Sample.pdf Sample.lease))))
          (PDFService.generate_document_id "lease.pdf"
             (PageText.annotated ["Lease between A and B."; "Signed by A."]))
        = Some d
        /\ doc_id d
           = PDFService.generate_document_id "lease.pdf"
               (PageText.annotated
                  ["Lease between A and B."; "Signed by A."])
        /\ doc_filename d = "lease.pdf"
        /\ doc_text d
           = PageText.annotated ["Lease between A and B."; "Signed by A."]
        /\ doc_page_count d = 2).
Proof.
  split; [reflexivity|]. split; [reflexivity|].
  apply (@ingest_file_stores_document Sample.runtime
           (Main.mkIngest Db.init [] [] 0 [])
           (Sample.upload "lease.pdf" (Sample.pdf Sample.lease))
           (Sample.pdf Sample.lease)
           ["Lease between A and B."; "Signed by A."]);
    reflexivity.
Defined.


Lemma ingest_file_keeps_refused_upload_witness :
  PyStr.endswith ".pdf" (filename Sample.scan) = true
  /\ @PdfReader Sample.runtime (MD5.encode "not a PDF")
     = Raise (Exception "EOF marker not found")
  /\ Main.in_db
       (@Main.ingest_file Sample.runtime (Main.mkIngest Db.init [] [] 0 [])
          Sample.scan) = Db.init
  /\ Main.in_document_ids
       (@Main.ingest_file Sample.runtime (Main.mkIngest Db.init [] [] 0 [])
          Sample.scan) = []
  /\ @PDFService.open_rb Sample.runtime
       (Main.in_fs
          (@Main.ingest_file Sample.runtime
             (Main.mkIngest Db.init [] [] 0 []) Sample.scan))
       (PDFService.path_join "uploads" (filename Sample.scan))
     = Ok (MD5.encode "not a PDF")
  /\ Main.in_errors
       (@Main.ingest_file Sample.runtime (Main.mkIngest Db.init [] [] 0 [])
          Sample.scan)
     = List.app []
         ["Error processing " ++ filename Sample.scan
            ++ ": Error extracting text from PDF: "
            ++ exn_str (Exception "EOF marker not found")].
Proof.
  split; [reflexivity|]. split; [reflexivity|].
  apply (@ingest_file_keeps_refused_upload Sample.runtime
           (Main.mkIngest Db.init [] [] 0 []) Sample.scan
           (MD5.encode "not a PDF") (Exception "EOF marker not found"));
    reflexivity.
Defined.

Lemma metrics_after_one_of_each_witness :
  @Batch.processed Sample.runtime
    (Sample.upload "lease.pdf" (Sample.pdf Sample.lease)) = true
  /\ PyStr.truthy "Who signs?" = true
  /\ exists id,
       Main.in_document_ids
         (fst (@Main.ingest_documents Sample.runtime Db.init []
                 [Sample.upload "lease.pdf" (Sample.pdf Sample.lease)]))
       = [id]
       /\ Main.get_metrics
            (fst (@Main.audit_document (Sample.failing "quota exceeded")
                    Sample.decoder Sample.pydantic Sample.runtime
                    (fst (@Main.ask_question (Sample.failing "quota exceeded")
                            (fst (@Main.extract_fields
                                    (Sample.failing "quota exceeded")
                                    Sample.decoder Sample.pydantic
                                    Sample.runtime
                                    (Main.in_db
                                       (fst (@Main.ingest_documents
                                               Sample.runtime Db.init []
                                               [Sample.upload "lease.pdf"
                                                  (Sample.pdf Sample.lease)])))
                                    id))
                            "Who signs?" None))
                    id))
          = [("total_ingests", 1); ("total_extractions", 1);
             ("total_questions", 1); ("total_audits", 1);
             ("total_documents", 1)].
Proof.
  split; [reflexivity|]. split; [reflexivity|].
  apply (@metrics_after_one_of_each (Sample.failing "quota exceeded")
           Sample.decoder Sample.pydantic Sample.runtime []
           (Sample.upload "lease.pdf" (Sample.pdf Sample.lease))
           "Who signs?" None);
    reflexivity.
Defined.

(* ===================================================================== *)
(** * Listings and fences *)
(* ===================================================================== *)

Section ListingFacts.
Import Shape.

(** X27.  On a store whose entries stand under their own identifiers, the
    listing of the documents names every stored identifier once, in the
    order of the store, and its total is the number of entries listed and
    the [total_documents] that the metrics report. *)
Theorem list_documents_matches_store (db : DocumentStore) :
  Store.consistent db = true ->
  map summary_id (listed (Main.list_documents db))
  = dict_keys (documents db)
  /\ NoDup (map summary_id (listed (Main.list_documents db)))
  /\ total (Main.list_documents db)
     = List.length (listed (Main.list_documents db))
  /\ dict_get (Main.get_metrics db) "total_documents"
     = Some (total (Main.list_documents db)).
Proof.
  intros C. unfold Main.list_documents. cbn [listed total].
  rewrite map_map. cbn [summary_id].
  change (map (fun x => doc_id x) (Db.get_all_documents db))
    with (map doc_id (Db.get_all_documents db)).
  split; [now apply consistent_ids|].
  split; [now apply consistent_NoDup|].
  split; [now rewrite length_map|].
  unfold Main.get_metrics, Db.get_metrics, Db.get_all_documents, dict_values.
  now rewrite dict_get_set, length_map.
Qed.

End ListingFacts.

Lemma list_documents_matches_store_witness :
  Store.consistent Sample.store = true
  /\ map summary_id (listed (Main.list_documents Sample.store))
     = dict_keys (documents Sample.store)
  /\ NoDup (map summary_id (listed (Main.list_documents Sample.store)))
  /\ total (Main.list_documents Sample.store)
     = List.length (listed (Main.list_documents Sample.store))
  /\ dict_get (Main.get_metrics Sample.store) "total_documents"
     = Some (total (Main.list_documents Sample.store)).
Proof.
  split; [reflexivity|].
  apply (list_documents_matches_store Sample.store). reflexivity.
Defined.

Section FenceFacts.
Import PyStr Reply Shape.

Lemma replace_from_plain (a b old' new : string) :
  all no_backquote a = true ->
  replace_from 0 (String "`" old') new (a ++ b)
  = a ++ replace_from 0 (String "`" old') new b.
Proof.
  intros A. induction a as [|c a IH]; [reflexivity|].
  cbn [all] in A. apply andb_true_iff in A as [C A].
  cbn [append replace_from startswith].
  unfold no_backquote in C. apply negb_true_iff in C.
  rewrite Ascii.eqb_sym in C. rewrite C. cbn [andb].
  now rewrite (IH A).
Qed.

Lemma rstrip_append_nl (a : string) : rstrip (a ++ nl) = rstrip a.
Proof.
  induction a as [|c a IH]; [reflexivity|].
  cbn [append rstrip]. now rewrite IH.
Qed.

Lemma strip_append_nl (p : string) : strip (p ++ nl) = strip p.
Proof.
  unfold strip. induction p as [|c p IH]; [reflexivity|].
  cbn [append lstrip]. destruct (isspace c); [exact IH|].
  apply (rstrip_append_nl (String c p)).
Qed.

Lemma strip_between_nl (p : string) : strip (nl ++ p ++ nl) = strip p.
Proof.
  change (strip (nl ++ p ++ nl)) with (strip (p ++ nl)).
  apply strip_append_nl.
Qed.

(** X28.  A reply that is a payload between a fence, tagged [json] or
    bare, and a closing fence, each on a line of its own, is unwrapped to
    the payload, trimmed, when the payload holds no backquote. *)
Theorem strip_fence_unwraps (payload : string) :
  all no_backquote payload = true ->
  strip_fence ("```json" ++ nl ++ payload ++ nl ++ "```") = strip payload
  /\ strip_fence ("```" ++ nl ++ payload ++ nl ++ "```") = strip payload.
Proof.
  intros A.
  assert (B : all no_backquote (nl ++ payload ++ nl) = true).
  { change (nl ++ payload ++ nl) with (String (ascii_of_nat 10) (payload ++ nl)).
    cbn [all]. apply andb_true_iff. split; [reflexivity|].
    clear - A. induction payload as [|c p IH]; [reflexivity|].
    cbn [all append] in *. apply andb_true_iff in A as [C A].
    now rewrite C, (IH A). }
  assert (R : nl ++ payload ++ nl ++ "```" = nl ++ (payload ++ nl) ++ "```")
    by now rewrite !append_assoc.
  rewrite !R. clear R.
  assert (S : strip (nl ++ payload ++ nl) = strip payload)
    by apply strip_between_nl.
  remember (payload ++ nl) as y eqn:Y. clear Y A.
  assert (E : forall old',
            replace_from 0 (String "`" old') EmptyString (nl ++ y ++ "```")
            = (nl ++ y) ++ replace_from 0 (String "`" old') EmptyString "```").
  { intros old'. rewrite <- (replace_from_plain _ _ _ _ B).
    now rewrite append_assoc. }
  split.
  - unfold strip_fence, fence, fence_json, replace.
    change (startswith "```json" ("```json" ++ nl ++ y ++ "```")) with true.
    cbv iota.
    change (replace_from 0 "```json" EmptyString
              ("```json" ++ nl ++ y ++ "```"))
      with (replace_from 0 "```json" EmptyString (nl ++ y ++ "```")).
    rewrite (E "``json").
    change (replace_from 0 "```json" EmptyString "```") with "```".
    rewrite append_assoc, (E "``").
    change (replace_from 0 "```" EmptyString "```") with EmptyString.
    now rewrite append_empty_r.
  - unfold strip_fence, fence, fence_json, replace.
    change (startswith "```json" ("```" ++ nl ++ y ++ "```")) with false.
    cbv iota.
    change (startswith "```" ("```" ++ nl ++ y ++ "```")) with true.
    cbv iota.
    change (replace_from 0 "```" EmptyString ("```" ++ nl ++ y ++ "```"))
      with (replace_from 0 "```" EmptyString (nl ++ y ++ "```")).
    rewrite (E "``").
    change (replace_from 0 "```" EmptyString "```") with EmptyString.
    now rewrite append_empty_r.
Qed.

End FenceFacts.

Lemma strip_fence_unwraps_witness :
  PyStr.all Shape.no_backquote "[1, 2]" = true
  /\ Reply.strip_fence
       ("```json" ++ PyStr.nl ++ "[1, 2]" ++ PyStr.nl ++ "```")
     = PyStr.strip "[1, 2]"
  /\ Reply.strip_fence ("```" ++ PyStr.nl ++ "[1, 2]" ++ PyStr.nl ++ "```")
     = PyStr.strip "[1, 2]".
Proof.
  split; [reflexivity|].
  apply (strip_fence_unwraps "[1, 2]"). reflexivity.
Defined.
